(** * CTS_Hackathon front end: patient form, request body, Predict view

    A shallow embedding of the three source files of the repository:

    - [FormPage.jsx]  : the form state held by [useState], its two updaters
                        [handleChange] and [handleDiagnosisChange], and
                        [handleSubmit];
    - the [/submit] snippet : the [body] object built with [parseInt] and
                        [parseFloat];
    - [Predict.js]    : the asynchronous [handleSubmit] of the Predict view.

    JavaScript objects used as maps are [gmap string _]; arrays are lists;
    exceptions and rejected promises are an explicit error result.  A
    JavaScript string is a [string] whose characters stand for code units
    below 256. *)

From Stdlib Require Import ZArith NArith Ascii String.
From Stdlib Require Import DecimalString DecimalN DecimalPos.
From stdpp Require Import base option list strings gmap.

Local Open Scope string_scope.
Local Open Scope list_scope.
Local Open Scope nat_scope.
Set Warnings "-register-all".

(** ** Errors and results *)

Inductive error : Type :=
  | TypeError (msg : string)
  | SyntaxError (msg : string)
  | NetworkError (msg : string).

Inductive except (A : Type) : Type :=
  | Ok (a : A)
  | Throw (e : error).
Arguments Ok {A} a.
Arguments Throw {A} e.

Definition except_bind {A B : Type} (x : except A) (f : A → except B) : except B :=
  match x with
  | Ok a => f a
  | Throw e => Throw e
  end.

(** ** FormPage.jsx *)

Module FormPage.

(** The values held by the fields of [formData]: every [e.target.value] is a
    string, and [diagnosis] is an array of strings. *)
Inductive value : Type :=
  | VStr (s : string)
  | VArr (l : list string).

(** [formData]: an object, read and written by property name. A missing key
    reads as [undefined], which is [None] here. *)
Abbreviation form := (gmap string value).

(** [useState({ age: "", visits: "", diagnosis: [], glucose: "", aic: "" })] *)
Definition initialFormData : form :=
  <["age" := VStr ""]>
  (<["visits" := VStr ""]>
  (<["diagnosis" := VArr []]>
  (<["glucose" := VStr ""]>
  (<["aic" := VStr ""]> ∅)))).

(** [(prev) => ({ ...prev, [name]: value })] *)
Definition handleChange (name value : string) (prev : form) : form :=
  <[name := VStr value]> prev.

(** [String.prototype.includes]: [value] occurs in [s] as a substring. *)
Definition str_includes (s value : string) : bool :=
  match String.index 0 value s with
  | Some _ => true
  | None => false
  end.

(** [[...s]]: the characters of a string, each as a string. *)
Fixpoint spread_string (s : string) : list string :=
  match s with
  | EmptyString => []
  | String c s' => String c EmptyString :: spread_string s'
  end.

(** The updater passed to [setFormData] by [handleDiagnosisChange]:
<<
    if (prev.diagnosis.includes(value))
      return { ...prev, diagnosis: prev.diagnosis.filter((d) => d !== value) };
    if (prev.diagnosis.length < 3)
      return { ...prev, diagnosis: [...prev.diagnosis, value] };
    return prev;
>>
    [prev.diagnosis] is an array in every state the form reaches; the other
    two shapes a property can have are kept for completeness: a call on
    [undefined] throws, and a string has [includes] and [length] but no
    [filter]. *)
Definition handleDiagnosisChange (value : string) (prev : form) : except form :=
  match prev !! "diagnosis" with
  | Some (VArr diagnosis) =>
      if bool_decide (value ∈ diagnosis) then
        Ok (<["diagnosis" := VArr (filter (λ d, d ≠ value) diagnosis)]> prev)
      else if bool_decide (length diagnosis < 3) then
        Ok (<["diagnosis" := VArr (diagnosis ++ [value])]> prev)
      else Ok prev
  | Some (VStr s) =>
      if str_includes s value then
        Throw (TypeError "prev.diagnosis.filter is not a function")
      else if bool_decide (String.length s < 3) then
        Ok (<["diagnosis" := VArr (spread_string s ++ [value])]> prev)
      else Ok prev
  | None =>
      Throw (TypeError "Cannot read properties of undefined (reading 'includes')")
  end.

(** The [state] option handed to [navigate]: the object [{ formData }]. *)
Record nav_state : Type := { nav_formData : form }.

(** What [handleSubmit] does besides reading the state. *)
Inductive effect : Type :=
  | PreventDefault
  | ConsoleLog (label : string) (data : form)
  | Navigate (to : string) (state : nav_state).

(** [handleSubmit]: [e.preventDefault()], [console.log("Submitted Data:",
    formData)], [navigate("/results", { state: { formData } })]. *)
Definition handleSubmit (formData : form) : list effect :=
  [ PreventDefault;
    ConsoleLog "Submitted Data:" formData;
    Navigate "/results" {| nav_formData := formData |} ].

(** The controls of the rendered form that are wired to [handleChange],
    with the [name] attribute each one carries. *)
Inductive control : Type :=
  | AgeSelect
  | VisitsInput
  | GlucoseSelect
  | A1cSelect.

Definition control_name (c : control) : string :=
  match c with
  | AgeSelect => "age"
  | VisitsInput => "visits"
  | GlucoseSelect => "glucose"
  | A1cSelect => "a1c"
  end.

(** The labels of the seven check boxes, in the order they are rendered. *)
Definition diagnosis_options : list string :=
  [ "Circulatory"; "Diabetes"; "Digestive"; "Injury";
    "Musculoskeletal"; "Respiratory"; "Other" ].

(** What the user can do with the form. *)
Inductive interaction : Type :=
  | Change (c : control) (value : string)   (* onChange={handleChange} *)
  | Toggle (value : string)                 (* onChange={handleDiagnosisChange} *)
  | Submit.                                 (* onSubmit={handleSubmit} *)

(** The component: its state and the effects it has performed so far, the
    most recent last. *)
Record page : Type := {
  formData : form;
  effects : list effect;
}.

Definition mount : page :=
  {| formData := initialFormData; effects := [] |}.

Definition step (i : interaction) (p : page) : except page :=
  match i with
  | Change c v =>
      Ok {| formData := handleChange (control_name c) v (formData p);
            effects := effects p |}
  | Toggle v =>
      except_bind (handleDiagnosisChange v (formData p)) (λ f,
        Ok {| formData := f; effects := effects p |})
  | Submit =>
      Ok {| formData := formData p;
            effects := effects p ++ handleSubmit (formData p) |}
  end.

Fixpoint run (evs : list interaction) (p : page) : except page :=
  match evs with
  | [] => Ok p
  | i :: evs' => except_bind (step i p) (run evs')
  end.

(** A sequence of calls to the diagnosis toggle alone. *)
Fixpoint toggles (vs : list string) (f : form) : except form :=
  match vs with
  | [] => Ok f
  | v :: vs' => except_bind (handleDiagnosisChange v f) (toggles vs')
  end.

(** [formData.diagnosis] when it is an array. *)
Definition diagnosis (f : form) : option (list string) :=
  match f !! "diagnosis" with
  | Some (VArr l) => Some l
  | _ => None
  end.

(** The option picked last in the A1C select during a run of interactions. *)
Fixpoint last_a1c (evs : list interaction) : option string :=
  match evs with
  | [] => None
  | i :: evs' =>
      match last_a1c evs', i with
      | Some v, _ => Some v
      | None, Change A1cSelect v => Some v
      | None, _ => None
      end
  end.

(** The payloads of the navigations among a list of effects. *)
Definition payloads (es : list effect) : list nav_state :=
  omap (λ e, match e with Navigate _ st => Some st | _ => None end) es.

(** What holds of every page the form reaches: [diagnosis] is an array, [aic]
    is still empty, and so it is in every payload navigated with. *)
Definition aic_untouched (p : page) : Prop :=
  is_Some (diagnosis (formData p)) ∧
  formData p !! "aic" = Some (VStr "") ∧
  Forall (λ st, nav_formData st !! "aic" = Some (VStr "")) (payloads (effects p)).

(** [checked={formData.diagnosis.includes(d)}]: whether the check box of the
    label [d] is drawn checked. *)
Definition checked (d : string) (f : form) : except bool :=
  match f !! "diagnosis" with
  | Some (VArr diagnosis) => Ok (bool_decide (d ∈ diagnosis))
  | Some (VStr s) => Ok (str_includes s d)
  | None =>
      Throw (TypeError "Cannot read properties of undefined (reading 'includes')")
  end.

(** [value={formData.age}], [value={formData.visits}], [value={formData.glucose}]
    and [value={formData.a1c}]: the property each control displays. *)
Definition control_value (c : control) (f : form) : option value :=
  match c with
  | AgeSelect => f !! "age"
  | VisitsInput => f !! "visits"
  | GlucoseSelect => f !! "glucose"
  | A1cSelect => f !! "a1c"
  end.

(** The value given last to the control [c] during a run of interactions. *)
Fixpoint last_change (c : control) (evs : list interaction) : option string :=
  match evs with
  | [] => None
  | i :: evs' =>
      match last_change c evs', i with
      | Some v, _ => Some v
      | None, Change c' v =>
          if String.eqb (control_name c') (control_name c) then Some v else None
      | None, _ => None
      end
  end.

(** How many times the form is submitted during a run of interactions. *)
Fixpoint submits (evs : list interaction) : nat :=
  match evs with
  | [] => 0
  | Submit :: evs' => S (submits evs')
  | _ :: evs' => submits evs'
  end.

(** The values toggled during a run of interactions. *)
Fixpoint toggled (evs : list interaction) : list string :=
  match evs with
  | [] => []
  | Toggle v :: evs' => v :: toggled evs'
  | _ :: evs' => toggled evs'
  end.

(** A form whose [diagnosis] is an array of at most three distinct labels,
    all among [allowed]. *)
Definition selection_within (allowed : list string) (f : form) : Prop :=
  ∃ l, diagnosis f = Some l ∧ length l ≤ 3 ∧ NoDup l ∧ l ⊆ allowed.

End FormPage.

(** ** Numbers, and the conversions from strings the source calls *)

Module JsNumber.

Local Open Scope N_scope.

(** A Number. [Decimal neg m e] stands for the Number nearest to the real
    [m * 10^e], negated when [neg]; it is kept as the decimal that was read,
    so no rounding is computed. [Decimal true 0 0] is the negative zero. *)
Inductive number : Type :=
  | NaN
  | Infinity (neg : bool)
  | Decimal (neg : bool) (m : N) (e : Z).

(** A real of magnitude at least [2^1024 - 2^970] rounds to an infinity. *)
Definition overflow_threshold : N := (2 ^ 54 - 1) * 2 ^ 970.

Definition overflows (m : N) (e : Z) : bool :=
  match e with
  | Z0 => overflow_threshold <=? m
  | Zpos p => overflow_threshold <=? m * 10 ^ Npos p
  | Zneg p => overflow_threshold * 10 ^ Npos p <=? m
  end.

(** The Number for the real [m * 10^e] with the sign [neg]. *)
Definition to_number (neg : bool) (m : N) (e : Z) : number :=
  if overflows m e then Infinity neg else Decimal neg m e.

Definition of_Z (z : Z) : number :=
  to_number (Z.ltb z 0) (Z.abs_N z) 0.

(** White space and line terminators, among the code units below 256. *)
Definition is_white_space (c : ascii) : bool :=
  let n := N_of_ascii c in
  ((9 <=? n) && (n <=? 13)) || (n =? 32) || (n =? 160).

Fixpoint trimStart (s : string) : string :=
  match s with
  | EmptyString => EmptyString
  | String c s' => if is_white_space c then trimStart s' else s
  end.

Fixpoint trimEnd (s : string) : string :=
  match s with
  | EmptyString => EmptyString
  | String c s' =>
      match trimEnd s' with
      | EmptyString => if is_white_space c then EmptyString else String c EmptyString
      | t => String c t
      end
  end.

Definition trim (s : string) : string := trimEnd (trimStart s).

(** The value of [c] as a digit of the given radix (letters in either case
    count from ten). *)
Definition digit_of (radix : N) (c : ascii) : option N :=
  let n := N_of_ascii c in
  let v :=
    if (48 <=? n) && (n <=? 57) then Some (n - 48)
    else if (97 <=? n) && (n <=? 122) then Some (n - 87)
    else if (65 <=? n) && (n <=? 90) then Some (n - 55)
    else None in
  match v with
  | Some d => if d <? radix then Some d else None
  | None => None
  end.

(** The longest run of digits at the start of [s]: its value on top of
    [acc], how many digits were read on top of [count], and the rest. *)
Fixpoint scan_digits (radix acc : N) (count : nat) (s : string) : N * nat * string :=
  match s with
  | EmptyString => (acc, count, s)
  | String c s' =>
      match digit_of radix c with
      | Some d => scan_digits radix (radix * acc + d) (S count) s'
      | None => (acc, count, s)
      end
  end.

(** An optional sign: whether it is a minus, and the rest. *)
Definition scan_sign (s : string) : bool * string :=
  match s with
  | String "-" s' => (true, s')
  | String "+" s' => (false, s')
  | _ => (false, s)
  end.

(** [parseInt(string, radix)]: leading white space is dropped, then a sign,
    then (for radix 16, or radix 0 which otherwise means 10) a [0x] prefix;
    the digits that follow are read up to the first character that is not a
    digit of the radix, and with no digit the result is [NaN]. *)
Definition parseInt (input : string) (radix : N) : number :=
  let '(neg, s) := scan_sign (trimStart input) in
  if negb (radix =? 0) && ((radix <? 2) || (36 <? radix)) then NaN
  else
    let strip_prefix := (radix =? 0) || (radix =? 16) in
    let '(R, s) :=
      match s with
      | String "0" (String x s') =>
          if strip_prefix && (Ascii.eqb x "x" || Ascii.eqb x "X")
          then (16, s')
          else (if radix =? 0 then 10 else radix, s)
      | _ => (if radix =? 0 then 10 else radix, s)
      end in
    let '(mathInt, count, _) := scan_digits R 0 0 s in
    match count with
    | O => NaN
    | S _ => to_number neg mathInt 0
    end.

(** An exponent part [e], [E] followed by a signed integer, when there is
    one: its value and the rest; otherwise [0] and the input. *)
Definition scan_exponent (s : string) : Z * string :=
  match s with
  | String c s' =>
      if Ascii.eqb c "e" || Ascii.eqb c "E" then
        let '(neg, s'') := scan_sign s' in
        let '(v, count, rest) := scan_digits 10 0 0 s'' in
        match count with
        | O => (0%Z, s)
        | S _ => (if neg then (- Z.of_N v)%Z else Z.of_N v, rest)
        end
      else (0%Z, s)
  | EmptyString => (0%Z, s)
  end.

(** The longest prefix of [s] that is a decimal literal
    ([Infinity], [digits], [digits.], [digits.digits] or [.digits], with an
    optional exponent part, after an optional sign): the Number it denotes
    and the rest of [s]; [None] when no prefix is one. *)
Definition scan_decimal (s : string) : option (number * string) :=
  let '(neg, s) := scan_sign s in
  if String.prefix "Infinity" s then
    Some (Infinity neg, String.substring 8 (String.length s - 8) s)
  else
    let '(int_part, n1, r1) := scan_digits 10 0 0 s in
    match r1 with
    | String "." r2 =>
        let '(m, n2, r3) := scan_digits 10 int_part 0 r2 in
        match n1, n2 with
        | O, O => None
        | _, _ =>
            let '(e, rest) := scan_exponent r3 in
            Some (to_number neg m (e - Z.of_nat n2), rest)
        end
    | _ =>
        match n1 with
        | O => None
        | S _ =>
            let '(e, rest) := scan_exponent r1 in
            Some (to_number neg int_part e, rest)
        end
    end.

(** [parseFloat(string)]: the longest decimal literal after the leading
    white space, [NaN] when there is none. *)
Definition parseFloat (input : string) : number :=
  match scan_decimal (trimStart input) with
  | Some (n, _) => n
  | None => NaN
  end.

(** A binary, octal or hexadecimal integer literal making up all of [s]. *)
Definition scan_non_decimal (s : string) : option number :=
  match s with
  | String "0" (String x s') =>
      let radix :=
        if Ascii.eqb x "x" || Ascii.eqb x "X" then Some 16
        else if Ascii.eqb x "o" || Ascii.eqb x "O" then Some 8
        else if Ascii.eqb x "b" || Ascii.eqb x "B" then Some 2
        else None in
      match radix with
      | Some R =>
          match scan_digits R 0 0 s' with
          | (v, S _, EmptyString) => Some (to_number false v 0)
          | _ => None
          end
      | None => None
      end
  | _ => None
  end.

(** [Number(string)]: white space is trimmed at both ends; the empty string
    is [+0]; otherwise the whole of what is left must be a numeric literal,
    and anything else is [NaN]. *)
Definition Number (input : string) : number :=
  let s := trim input in
  match s with
  | EmptyString => Decimal false 0 0
  | _ =>
      match scan_non_decimal s with
      | Some n => n
      | None =>
          match scan_decimal s with
          | Some (n, EmptyString) => n
          | _ => NaN
          end
      end
  end.

(** [NaN] and the infinities are the Numbers that are not finite. *)
Definition is_finite (n : number) : bool :=
  match n with
  | Decimal _ _ _ => true
  | _ => false
  end.

(** A real of magnitude at most [2^-1075] rounds to a zero. *)
Definition rounds_to_zero (m : N) (e : Z) : bool :=
  match e with
  | Zneg p => m * 2 ^ 1075 <=? 10 ^ Npos p
  | _ => m =? 0
  end.

(** A text that does not go on with a decimal digit. *)
Definition no_digit_ahead (rest : string) : Prop :=
  match rest with
  | EmptyString => True
  | String c _ => digit_of 10 c = None
  end.

(** A letter of the basic Latin alphabet, in either case. *)
Definition is_letter (c : ascii) : bool :=
  let n := N_of_ascii c in
  ((97 <=? n) && (n <=? 122)) || ((65 <=? n) && (n <=? 90)).

(** A string of white space only; the empty string is one. *)
Definition blank (s : string) : Prop :=
  Forall (λ c, is_white_space c = true) (list_ascii_of_string s).

End JsNumber.

(** ** JSON documents, requests and responses *)

Module Http.

Import JsNumber.

(** A JSON document, as the tree its text denotes. The fields of an object
    are kept in the order of the text. *)
Inductive json : Type :=
  | JNull
  | JBool (b : bool)
  | JNumber (n : number)
  | JString (s : string)
  | JArray (items : list json)
  | JObject (fields : list (string * json)).

(** How [JSON.stringify] writes a Number: one that is not finite becomes
    [null]. *)
Definition stringify_number (n : number) : json :=
  if is_finite n then JNumber n else JNull.

(** A settled promise. *)
Inductive promise (A : Type) : Type :=
  | Fulfilled (a : A)
  | Rejected (e : error).
Arguments Fulfilled {A} a.
Arguments Rejected {A} e.

(** The argument of [fetch]; [req_body] is the document whose text is sent. *)
Record request : Type := {
  url : string;
  method : string;
  headers : list (string * string);
  req_body : json;
}.

(** What the handlers use of a [Response]: [resp_json] is how the promise
    returned by [response.json()] settles. *)
Record response : Type := {
  status : N;
  resp_json : promise json;
}.

End Http.

(** ** The request body of the [/submit] snippet *)

Module SubmitRequest.

Import JsNumber Http.

Record request_body : Type := {
  age : string;
  total_visits : number;
  diagnoses : list string;
  glucose_test : number;
  a1c_test : number;
}.

(** [const body = { age: selectedAge, total_visits: parseInt(totalVisits, 10),
    diagnoses: selectedDiagnosesArray, glucose_test: parseFloat(glucoseValue),
    a1c_test: parseFloat(a1cValue) }]; the five variables are free in the
    snippet and are arguments here. *)
Definition body (selectedAge totalVisits : string)
    (selectedDiagnosesArray : list string) (glucoseValue a1cValue : string)
    : request_body :=
  {| age := selectedAge;
     total_visits := parseInt totalVisits 10;
     diagnoses := selectedDiagnosesArray;
     glucose_test := parseFloat glucoseValue;
     a1c_test := parseFloat a1cValue |}.

(** The values the glucose and A1C selects of the form offer. *)
Definition test_levels : list string := [ "high"; "normal"; "unknown" ].

(** [JSON.stringify(body)]: the five fields in the order of the literal. *)
Definition stringify_body (b : request_body) : json :=
  JObject [ ("age", JString (age b));
            ("total_visits", stringify_number (total_visits b));
            ("diagnoses", JArray (JString <$> diagnoses b));
            ("glucose_test", stringify_number (glucose_test b));
            ("a1c_test", stringify_number (a1c_test b)) ].

(** The arguments of [fetch("http://localhost:8000/submit", {...})]. *)
Definition submit_request (b : request_body) : request :=
  {| url := "http://localhost:8000/submit";
     method := "POST";
     headers := [ ("Content-Type", "application/json") ];
     req_body := stringify_body b |}.

End SubmitRequest.

(** ** Predict.js *)

Module Predict.

Import JsNumber Http.

(** A value held by the [result] state: [undefined], or what came out of the
    parsed response (the initial [""] is a string). *)
Inductive js_value : Type :=
  | Undefined
  | Parsed (j : json).

Inductive effect : Type :=
  | PreventDefault
  | Fetch (req : request).

(** The two pieces of state of the component, and what it has done so far
    (the most recent effect last). *)
Record component : Type := {
  features : string;
  result : js_value;
  trace : list effect;
}.

(** [useState("")] twice. *)
Definition mount : component :=
  {| features := ""; result := Parsed (JString ""); trace := [] |}.

(** [onChange={(e) => setFeatures(e.target.value)}] *)
Definition setFeatures (v : string) (c : component) : component :=
  {| features := v; result := result c; trace := trace c |}.

(** Handlers run in a state-and-error monad: the component is threaded
    through, and it is kept when an error is thrown. *)
Definition M (A : Type) : Type := component → except A * component.

Definition ret {A : Type} (a : A) : M A := λ c, (Ok a, c).

Definition bind {A B : Type} (m : M A) (k : A → M B) : M B :=
  λ c, match m c with
       | (Ok a, c') => k a c'
       | (Throw e, c') => (Throw e, c')
       end.

#[global] Instance M_ret : MRet M := @ret.
#[global] Instance M_bind : MBind M := λ A B k m, bind m k.

Definition throw {A : Type} (e : error) : M A := λ c, (Throw e, c).

Definition lift {A : Type} (x : except A) : M A := λ c, (x, c).

Definition perform (e : effect) : M unit :=
  λ c, (Ok tt, {| features := features c; result := result c;
                  trace := trace c ++ [e] |}).

Definition preventDefault : M unit := perform PreventDefault.

Definition readFeatures : M string := λ c, (Ok (features c), c).

Definition setResult (v : js_value) : M unit :=
  λ c, (Ok tt, {| features := features c; result := v; trace := trace c |}).

(** [await p]: the value of a fulfilled promise; a rejection is thrown. *)
Definition await {A : Type} (p : promise A) : M A :=
  match p with
  | Fulfilled a => ret a
  | Rejected e => throw e
  end.

(** [s.split(",")], for a separator of one character: the pieces between
    the separators, so one piece more than there are separators. *)
Fixpoint split (sep : ascii) (s : string) : list string :=
  match s with
  | EmptyString => [EmptyString]
  | String c s' =>
      if Ascii.eqb c sep then EmptyString :: split sep s'
      else match split sep s' with
           | piece :: rest => String c piece :: rest
           | [] => [String c EmptyString]
           end
  end.

(** The own property [key] of a parsed object: of two fields with one name
    the later one is kept by [JSON.parse]. *)
Fixpoint field (key : string) (fields : list (string * json)) : option json :=
  match fields with
  | [] => None
  | (k, v) :: rest =>
      match field key rest with
      | Some v' => Some v'
      | None => if String.eqb k key then Some v else None
      end
  end.

(** [data.prediction]: reading a property of [null] throws; an object gives
    its field or [undefined]; a boolean, a number, a string and an array
    have no such property. *)
Definition get_prediction (data : json) : except js_value :=
  match data with
  | JNull =>
      Throw (TypeError "Cannot read properties of null (reading 'prediction')")
  | JObject fields =>
      Ok (match field "prediction" fields with
          | Some v => Parsed v
          | None => Undefined
          end)
  | _ => Ok Undefined
  end.

(** [JSON.stringify({ features: features.split(",").map(Number) })] *)
Definition features_body (features : string) : json :=
  JObject [ ("features",
             JArray (stringify_number <$> (Number <$> split "," features))) ].

(** The second argument of [fetch] in [handleSubmit], with its first. *)
Definition predict_request (features : string) : request :=
  {| url := "http://127.0.0.1:5000/predict";
     method := "POST";
     headers := [ ("Content-Type", "application/json") ];
     req_body := features_body features |}.

Section Handler.

(** How the network answers a request. *)
Variable network : request → promise response.

Definition fetch (req : request) : M response :=
  perform (Fetch req) ;; await (network req).

(** [handleSubmit]:
<<
    e.preventDefault();
    const response = await fetch("http://127.0.0.1:5000/predict", {
      method: "POST",
      headers: { "Content-Type": "application/json" },
      body: JSON.stringify({ features: features.split(",").map(Number) }),
    });
    const data = await response.json();
    setResult(data.prediction);
>> *)
Definition handleSubmit : M unit :=
  preventDefault ;;
  features ← readFeatures ;
  response ← fetch (predict_request features) ;
  data ← await (resp_json response) ;
  prediction ← lift (get_prediction data) ;
  setResult prediction.

End Handler.

(** The truth value of what [result] holds, as [&&] tests it. *)
Definition truthy (v : js_value) : bool :=
  match v with
  | Undefined => false
  | Parsed JNull => false
  | Parsed (JBool b) => b
  | Parsed (JNumber NaN) => false
  | Parsed (JNumber (Infinity _)) => true
  | Parsed (JNumber (Decimal _ m e)) => negb (rounds_to_zero m e)
  | Parsed (JString s) => negb (String.eqb s "")
  | Parsed (JArray _) => true
  | Parsed (JObject _) => true
  end.

(** [{result && <h3>Prediction: {result}</h3>}]: whether the expression is
    the heading element, and not the falsy [result] itself. *)
Definition heading_rendered (c : component) : bool := truthy (result c).

(** How often the character [sep] occurs in [s]. *)
Definition occurrences (sep : ascii) (s : string) : nat :=
  length (filter (λ c, c = sep) (list_ascii_of_string s)).

(** The character [sep] does not occur in [s]. *)
Definition free_of (sep : ascii) (s : string) : Prop :=
  sep ∉ list_ascii_of_string s.

End Predict.

(** * Checks of the definitions on concrete inputs *)

Example toggle_example :
  ∃ f4 f5,
    FormPage.toggles ["Diabetes"; "Injury"; "Other"; "Circulatory"]
      FormPage.initialFormData = Ok f4 ∧
    FormPage.diagnosis f4 = Some ["Diabetes"; "Injury"; "Other"] ∧
    FormPage.handleDiagnosisChange "Diabetes" f4 = Ok f5 ∧
    FormPage.diagnosis f5 = Some ["Injury"; "Other"].
Proof. eexists _, _. repeat split; reflexivity. Qed.

Example parseInt_examples :
  JsNumber.parseInt "5" 10 = JsNumber.Decimal false 5 0 ∧
  JsNumber.parseInt "  -42px" 10 = JsNumber.Decimal true 42 0 ∧
  JsNumber.parseInt "" 10 = JsNumber.NaN ∧
  JsNumber.parseInt "0x1F" 10 = JsNumber.Decimal false 0 0 ∧
  JsNumber.parseInt "0x1F" 16 = JsNumber.Decimal false 31 0 ∧
  JsNumber.parseInt "3.7" 10 = JsNumber.Decimal false 3 0.
Proof. vm_compute. repeat split. Qed.

Example parseFloat_examples :
  JsNumber.parseFloat "3.25abc" = JsNumber.Decimal false 325 (-2) ∧
  JsNumber.parseFloat " -.5e3x" = JsNumber.Decimal true 5 2 ∧
  JsNumber.parseFloat "1e" = JsNumber.Decimal false 1 0 ∧
  JsNumber.parseFloat "." = JsNumber.NaN ∧
  JsNumber.parseFloat "5." = JsNumber.Decimal false 5 0 ∧
  JsNumber.parseFloat "-Infinityx" = JsNumber.Infinity true ∧
  JsNumber.parseFloat "1e999" = JsNumber.Infinity false ∧
  JsNumber.parseFloat "" = JsNumber.NaN.
Proof. vm_compute. repeat split. Qed.

Example Number_examples :
  JsNumber.Number "" = JsNumber.Decimal false 0 0 ∧
  JsNumber.Number " 12 " = JsNumber.Decimal false 12 0 ∧
  JsNumber.Number "1.5" = JsNumber.Decimal false 15 (-1) ∧
  JsNumber.Number "12px" = JsNumber.NaN ∧
  JsNumber.Number "0x10" = JsNumber.Decimal false 16 0 ∧
  JsNumber.Number "-0x10" = JsNumber.NaN ∧
  JsNumber.Number "abc" = JsNumber.NaN ∧
  JsNumber.Number "1 2" = JsNumber.NaN ∧
  JsNumber.Number "-Infinity" = JsNumber.Infinity true.
Proof. vm_compute. repeat split. Qed.

(** * Properties of the form *)

Section FormPageFacts.

Import FormPage.

Lemma diagnosis_Some (f : form) (l : list string) :
  diagnosis f = Some l ↔ f !! "diagnosis" = Some (VArr l).
Proof.
  unfold diagnosis. destruct (f !! "diagnosis") as [[s|l']|]; naive_solver.
Qed.

Lemma diagnosis_insert (f : form) (l : list string) :
  diagnosis (<["diagnosis" := VArr l]> f) = Some l.
Proof. apply diagnosis_Some, lookup_insert_eq. Qed.

Lemma diagnosis_initial : diagnosis initialFormData = Some [].
Proof. reflexivity. Qed.

(** The three branches of the toggle on a state whose [diagnosis] is an
    array. *)
Lemma toggle_selected (f : form) (l : list string) (v : string) :
  diagnosis f = Some l → v ∈ l →
  handleDiagnosisChange v f
  = Ok (<["diagnosis" := VArr (filter (λ d, d ≠ v) l)]> f).
Proof.
  intros Hd Hin. apply diagnosis_Some in Hd.
  unfold handleDiagnosisChange. rewrite Hd.
  by rewrite bool_decide_eq_true_2.
Qed.

Lemma toggle_fresh (f : form) (l : list string) (v : string) :
  diagnosis f = Some l → v ∉ l → length l < 3 →
  handleDiagnosisChange v f = Ok (<["diagnosis" := VArr (l ++ [v])]> f).
Proof.
  intros Hd Hin Hlen. apply diagnosis_Some in Hd.
  unfold handleDiagnosisChange. rewrite Hd.
  rewrite bool_decide_eq_false_2 by done.
  by rewrite bool_decide_eq_true_2.
Qed.

Lemma toggle_full (f : form) (l : list string) (v : string) :
  diagnosis f = Some l → v ∉ l → 3 ≤ length l →
  handleDiagnosisChange v f = Ok f.
Proof.
  intros Hd Hin Hlen. apply diagnosis_Some in Hd.
  unfold handleDiagnosisChange. rewrite Hd.
  rewrite bool_decide_eq_false_2 by done.
  rewrite bool_decide_eq_false_2 by lia. done.
Qed.

(** A property of the list that the two writing branches keep is kept by
    every run of toggles whose values satisfy [Q]. *)
Lemma toggles_preserve (P : list string → Prop) (Q : string → Prop) :
  (∀ v l, Q v → P l → v ∈ l → P (filter (λ d, d ≠ v) l)) →
  (∀ v l, Q v → P l → v ∉ l → length l < 3 → P (l ++ [v])) →
  ∀ vs f l,
    Forall Q vs → diagnosis f = Some l → P l →
    ∃ f' l', toggles vs f = Ok f' ∧ diagnosis f' = Some l' ∧ P l'.
Proof.
  intros Hrem Hadd vs.
  induction vs as [|v vs IH]; intros f l HQ Hd HP; simpl.
  - by exists f, l.
  - apply Forall_cons in HQ as [Hv HQ].
    destruct (decide (v ∈ l)) as [Hin|Hin].
    + rewrite (toggle_selected f l v Hd Hin). simpl.
      eapply IH; [done | apply diagnosis_insert | by apply Hrem].
    + destruct (decide (length l < 3)) as [Hlt|Hge].
      * rewrite (toggle_fresh f l v Hd Hin Hlt). simpl.
        eapply IH; [done | apply diagnosis_insert | by apply Hadd].
      * rewrite (toggle_full f l v Hd Hin) by lia. simpl.
        by eapply IH.
Qed.

Lemma filter_ne_length (v : string) (l : list string) :
  length (filter (λ d, d ≠ v) l) ≤ length l.
Proof. apply length_filter. Qed.

Lemma filter_ne_count (v d : string) (l : list string) :
  d ≠ v →
  count_occ string_dec (filter (λ x, x ≠ v) l) d = count_occ string_dec l d.
Proof.
  intros Hne. induction l as [|x l IH]; [done|].
  rewrite filter_cons. destruct (decide (x ≠ v)) as [Hx|Hx]; simpl.
  - destruct (string_dec x d); by rewrite IH.
  - destruct (string_dec x d) as [->|_]; [|done].
    exfalso. apply Hx. done.
Qed.

(** C1: starting from the empty diagnosis list, after every sequence of
    toggles the list has at most 3 elements; and in any state, whatever the
    size of its list, toggling a value that is in the list succeeds and
    takes it out. *)
Theorem diagnosis_at_most_three_and_removal_succeeds :
  (∀ vs : list string,
     ∃ f l, toggles vs initialFormData = Ok f ∧
            diagnosis f = Some l ∧ length l ≤ 3) ∧
  (∀ (f : form) (l : list string) (v : string),
     diagnosis f = Some l → v ∈ l →
     ∃ f' l', handleDiagnosisChange v f = Ok f' ∧
              diagnosis f' = Some l' ∧ (v ∉ l') ∧ length l' < length l).
Proof.
  split.
  - intros vs.
    apply (toggles_preserve (λ l, length l ≤ 3) (λ _, True)) with (l := []).
    + intros v l _ Hl _. pose proof (filter_ne_length v l). lia.
    + intros v l _ _ _ Hlt. rewrite length_app. simpl. lia.
    + by apply Forall_true.
    + apply diagnosis_initial.
    + simpl. lia.
  - intros f l v Hd Hin.
    exists (<["diagnosis" := VArr (filter (λ d, d ≠ v) l)]> f),
           (filter (λ d, d ≠ v) l).
    split; [by apply toggle_selected|].
    split; [apply diagnosis_insert|].
    split.
    + rewrite list_elem_of_filter. intros [Hne _]. by apply Hne.
    + apply (length_filter_lt _ _ v); [done|]. intros Hne. by apply Hne.
Qed.

(** A form with four selected entries, as no run of toggles produces. *)
Lemma diagnosis_at_most_three_and_removal_succeeds_witness :
  ∃ f' l',
    handleDiagnosisChange "b"
      (<["diagnosis" := VArr ["a"; "b"; "c"; "d"]]> initialFormData) = Ok f' ∧
    diagnosis f' = Some l' ∧ ("b" ∉ l') ∧ length l' < 4.
Proof.
  apply (proj2 diagnosis_at_most_three_and_removal_succeeds
           (<["diagnosis" := VArr ["a"; "b"; "c"; "d"]]> initialFormData)
           ["a"; "b"; "c"; "d"] "b").
  - reflexivity.
  - apply list_elem_of_further, list_elem_of_here.
Defined.

(** C4: toggling a value that is in the list gives the list without the
    occurrences of that value: the value is gone, every other value occurs
    as often as before, the order is kept, and no other field changes. *)
Theorem toggle_selected_removes_exactly_it
    (f : form) (l : list string) (v : string) :
  diagnosis f = Some l → v ∈ l →
  ∃ f' l',
    handleDiagnosisChange v f = Ok f' ∧
    diagnosis f' = Some l' ∧
    l' = filter (λ d, d ≠ v) l ∧
    (v ∉ l') ∧
    (∀ d, d ≠ v → count_occ string_dec l' d = count_occ string_dec l d) ∧
    l' `sublist_of` l ∧
    (∀ k, k ≠ "diagnosis" → f' !! k = f !! k).
Proof.
  intros Hd Hin.
  exists (<["diagnosis" := VArr (filter (λ d, d ≠ v) l)]> f),
         (filter (λ d, d ≠ v) l).
  split; [by apply toggle_selected|].
  split; [apply diagnosis_insert|].
  split; [done|].
  split; [rewrite list_elem_of_filter; intros [Hne _]; by apply Hne|].
  split; [intros d Hne; by apply filter_ne_count|].
  split; [apply sublist_filter|].
  intros k Hk. by rewrite lookup_insert_ne.
Qed.

Lemma toggle_selected_removes_exactly_it_witness :
  ∃ f' l',
    handleDiagnosisChange "Diabetes"
      (<["diagnosis" := VArr ["Diabetes"; "Injury"; "Other"]]> initialFormData)
    = Ok f' ∧
    diagnosis f' = Some l' ∧
    l' = filter (λ d, d ≠ "Diabetes") ["Diabetes"; "Injury"; "Other"] ∧
    ("Diabetes" ∉ l') ∧
    (∀ d, d ≠ "Diabetes" →
          count_occ string_dec l' d
          = count_occ string_dec ["Diabetes"; "Injury"; "Other"] d) ∧
    l' `sublist_of` ["Diabetes"; "Injury"; "Other"] ∧
    (∀ k, k ≠ "diagnosis" →
          f' !! k
          = (<["diagnosis" := VArr ["Diabetes"; "Injury"; "Other"]]>
               initialFormData) !! k).
Proof.
  apply (toggle_selected_removes_exactly_it
           (<["diagnosis" := VArr ["Diabetes"; "Injury"; "Other"]]> initialFormData)
           ["Diabetes"; "Injury"; "Other"] "Diabetes").
  - reflexivity.
  - apply list_elem_of_here.
Defined.

(** C5: toggling a value that is not in the list, when the list has fewer
    than 3 elements, gives the list with the value appended at its end, and
    changes no other field. *)
Theorem toggle_fresh_appends
    (f : form) (l : list string) (v : string) :
  diagnosis f = Some l → v ∉ l → length l < 3 →
  ∃ f',
    handleDiagnosisChange v f = Ok f' ∧
    diagnosis f' = Some (l ++ [v]) ∧
    (∀ k, k ≠ "diagnosis" → f' !! k = f !! k).
Proof.
  intros Hd Hin Hlt.
  exists (<["diagnosis" := VArr (l ++ [v])]> f).
  split; [by apply toggle_fresh|].
  split; [apply diagnosis_insert|].
  intros k Hk. by rewrite lookup_insert_ne.
Qed.

Lemma toggle_fresh_appends_witness :
  ∃ f',
    handleDiagnosisChange "Injury"
      (<["diagnosis" := VArr ["Diabetes"]]> initialFormData) = Ok f' ∧
    diagnosis f' = Some (["Diabetes"] ++ ["Injury"]) ∧
    (∀ k, k ≠ "diagnosis" →
          f' !! k = (<["diagnosis" := VArr ["Diabetes"]]> initialFormData) !! k).
Proof.
  apply (toggle_fresh_appends
           (<["diagnosis" := VArr ["Diabetes"]]> initialFormData)
           ["Diabetes"] "Injury").
  - reflexivity.
  - intros H. apply list_elem_of_singleton in H. discriminate H.
  - simpl. lia.
Defined.

Example diagnosis_options_seven :
  length diagnosis_options = 7 ∧ NoDup diagnosis_options.
Proof. split; [reflexivity | compute_done]. Qed.

(** C10: starting from the empty list, after every sequence of toggles of
    values taken from the seven labels, the diagnosis list has no duplicate
    and holds only labels among the seven. *)
Theorem diagnosis_is_duplicate_free_and_enumerated (vs : list string) :
  Forall (λ v, v ∈ diagnosis_options) vs →
  ∃ f l, toggles vs initialFormData = Ok f ∧
         diagnosis f = Some l ∧
         NoDup l ∧
         Forall (λ d, d ∈ diagnosis_options) l.
Proof.
  intros Hvs.
  apply (toggles_preserve
           (λ l, NoDup l ∧ Forall (λ d, d ∈ diagnosis_options) l)
           (λ v, v ∈ diagnosis_options)) with (l := []).
  - intros v l _ [Hnd Hall] _. split.
    + by apply NoDup_filter.
    + apply Forall_forall. intros x Hx.
      apply list_elem_of_filter in Hx as [_ Hx].
      rewrite Forall_forall in Hall. by apply Hall.
  - intros v l Hv [Hnd Hall] Hin _. split.
    + apply NoDup_app. split; [done|]. split.
      * intros x Hx Hxv. apply list_elem_of_singleton in Hxv. by subst.
      * apply NoDup_singleton.
    + apply Forall_app. split; [done|]. by apply Forall_singleton.
  - done.
  - apply diagnosis_initial.
  - split; [apply NoDup_nil_2 | apply Forall_nil_2].
Qed.

Lemma diagnosis_is_duplicate_free_and_enumerated_witness :
  ∃ f l,
    toggles ["Diabetes"; "Injury"; "Diabetes"; "Other"] initialFormData = Ok f ∧
    diagnosis f = Some l ∧
    NoDup l ∧
    Forall (λ d, d ∈ diagnosis_options) l.
Proof.
  apply (diagnosis_is_duplicate_free_and_enumerated
           ["Diabetes"; "Injury"; "Diabetes"; "Other"]).
  compute_done.
Defined.

Lemma payloads_handleSubmit (f : form) :
  payloads (handleSubmit f) = [ {| nav_formData := f |} ].
Proof. reflexivity. Qed.

Lemma payloads_app (es1 es2 : list effect) :
  payloads (es1 ++ es2) = payloads es1 ++ payloads es2.
Proof. apply omap_app. Qed.

(** C6: submitting the form as it is mounted navigates with a payload that
    is the initial state, every field empty; and whatever the state, the
    submission goes through and hands the state over as it is. *)
Theorem submit_passes_form_state_unchanged :
  initialFormData
  = list_to_map [ ("age", VStr ""); ("visits", VStr ""); ("diagnosis", VArr []);
                  ("glucose", VStr ""); ("aic", VStr "") ] ∧
  run [Submit] mount
  = Ok {| formData := initialFormData;
          effects := [ PreventDefault;
                       ConsoleLog "Submitted Data:" initialFormData;
                       Navigate "/results" {| nav_formData := initialFormData |} ] |} ∧
  (∀ p : page,
     ∃ p', step Submit p = Ok p' ∧
           formData p' = formData p ∧
           payloads (effects p')
           = payloads (effects p) ++ [ {| nav_formData := formData p |} ]).
Proof.
  split; [reflexivity|]. split; [reflexivity|].
  intros p. eexists. split; [reflexivity|]. simpl.
  split; [reflexivity|].
  by rewrite payloads_app, payloads_handleSubmit.
Qed.

(** No control wired to [handleChange] is named [aic] or [diagnosis]. *)
Lemma control_name_not_aic (c : control) :
  control_name c ≠ "aic" ∧ control_name c ≠ "diagnosis".
Proof. destruct c; split; discriminate. Qed.

Lemma toggle_other_fields (f : form) (l : list string) (v : string) :
  diagnosis f = Some l →
  ∃ f' l', handleDiagnosisChange v f = Ok f' ∧
           diagnosis f' = Some l' ∧
           (∀ k, k ≠ "diagnosis" → f' !! k = f !! k).
Proof.
  intros Hd.
  destruct (decide (v ∈ l)) as [Hin|Hin].
  - eexists _, _. split; [by apply toggle_selected|].
    split; [apply diagnosis_insert|].
    intros k Hk. by rewrite lookup_insert_ne.
  - destruct (decide (length l < 3)) as [Hlt|Hge].
    + eexists _, _. split; [by apply toggle_fresh|].
      split; [apply diagnosis_insert|].
      intros k Hk. by rewrite lookup_insert_ne.
    + exists f, l. split; [apply (toggle_full f l v Hd Hin); lia|]. done.
Qed.

Lemma step_aic_untouched (i : interaction) (p : page) :
  aic_untouched p →
  ∃ p', step i p = Ok p' ∧ aic_untouched p' ∧
        formData p' !! "a1c"
        = match i with
          | Change A1cSelect v => Some (VStr v)
          | _ => formData p !! "a1c"
          end.
Proof.
  intros ([l Hd] & Haic & Hnav).
  destruct i as [c v|v|]; simpl.
  - eexists. split; [reflexivity|].
    destruct (control_name_not_aic c) as [Hc1 Hc2].
    unfold aic_untouched, handleChange. simpl. split; [split; [|split]|].
    + exists l. apply diagnosis_Some. rewrite lookup_insert_ne by done.
      by apply diagnosis_Some.
    + by rewrite lookup_insert_ne.
    + done.
    + destruct c; simpl; by rewrite ?lookup_insert_eq, ?lookup_insert_ne.
  - destruct (toggle_other_fields (formData p) l v Hd) as (f' & l' & -> & Hd' & Hk).
    simpl. eexists. split; [reflexivity|].
    unfold aic_untouched. simpl. split; [split; [|split]|].
    + by exists l'.
    + by rewrite Hk.
    + done.
    + by apply Hk.
  - eexists. split; [reflexivity|].
    unfold aic_untouched. simpl. split; [split; [|split]|]; [by exists l|done| |done].
    rewrite payloads_app, payloads_handleSubmit.
    apply Forall_app. split; [done|]. by apply Forall_singleton.
Qed.

Lemma run_aic_untouched (evs : list interaction) :
  ∀ p, aic_untouched p →
  ∃ p', run evs p = Ok p' ∧ aic_untouched p' ∧
        formData p' !! "a1c"
        = match last_a1c evs with
          | Some v => Some (VStr v)
          | None => formData p !! "a1c"
          end.
Proof.
  induction evs as [|i evs IH]; intros p Hp; simpl.
  - by exists p.
  - destruct (step_aic_untouched i p Hp) as (p1 & -> & Hp1 & Ha1c). simpl.
    destruct (IH p1 Hp1) as (p' & Hrun & Hp' & Hlast).
    exists p'. split; [done|]. split; [done|].
    rewrite Hlast, Ha1c.
    destruct (last_a1c evs); [done|].
    by destruct i as [[]|v|].
Qed.

(** C3: the A1C select is named [a1c] and the initial state has the key
    [aic]; so after every sequence of interactions the [aic] field is still
    the empty string, the A1C option picked last sits under the key [a1c]
    (which is absent until one is picked), and every payload navigated with
    has [aic] empty. *)
Theorem a1c_selection_never_reaches_aic (evs : list interaction) :
  control_name A1cSelect = "a1c" ∧
  initialFormData !! "aic" = Some (VStr "") ∧
  ∃ p, run evs mount = Ok p ∧
       formData p !! "aic" = Some (VStr "") ∧
       formData p !! "a1c" = VStr <$> last_a1c evs ∧
       Forall (λ st, nav_formData st !! "aic" = Some (VStr ""))
              (payloads (effects p)).
Proof.
  split; [reflexivity|]. split; [reflexivity|].
  destruct (run_aic_untouched evs mount) as (p & Hrun & (_ & Haic & Hnav) & Ha1c).
  { split; [by exists []|]. split; [reflexivity|]. apply Forall_nil_2. }
  exists p. split; [done|]. split; [done|]. split; [|done].
  rewrite Ha1c. by destruct (last_a1c evs).
Qed.

Example a1c_selection_example :
  ∃ p, run [ Change A1cSelect "high"; Toggle "Diabetes"; Submit ] mount = Ok p ∧
       payloads (effects p)
       = [ {| nav_formData :=
                <["a1c" := VStr "high"]>
                  (<["diagnosis" := VArr ["Diabetes"]]> initialFormData) |} ].
Proof. eexists. split; reflexivity. Qed.

End FormPageFacts.

(** * Properties of the request body of the [/submit] snippet *)

Section SubmitRequestFacts.

Import JsNumber SubmitRequest.

Lemma parseFloat_test_level (s : string) :
  s ∈ test_levels → parseFloat s = NaN.
Proof.
  unfold test_levels. rewrite !elem_of_cons, elem_of_nil.
  intros [->|[->|[->|[]]]]; reflexivity.
Qed.

(** C2: whatever the other inputs, when the glucose and the A1C values are
    among "high", "normal" and "unknown", the [glucose_test] and [a1c_test]
    fields of the body are both [NaN]. *)
Theorem categorical_levels_parse_to_NaN
    (selectedAge totalVisits : string) (selectedDiagnosesArray : list string)
    (glucoseValue a1cValue : string) :
  glucoseValue ∈ test_levels → a1cValue ∈ test_levels →
  glucose_test (body selectedAge totalVisits selectedDiagnosesArray
                     glucoseValue a1cValue) = NaN ∧
  a1c_test (body selectedAge totalVisits selectedDiagnosesArray
                 glucoseValue a1cValue) = NaN.
Proof.
  intros Hg Ha. simpl. split; by apply parseFloat_test_level.
Qed.

Lemma categorical_levels_parse_to_NaN_witness :
  glucose_test (body "60-70" "5" ["Diabetes"] "high" "normal") = NaN ∧
  a1c_test (body "60-70" "5" ["Diabetes"] "high" "normal") = NaN.
Proof.
  apply (categorical_levels_parse_to_NaN "60-70" "5" ["Diabetes"] "high" "normal").
  - apply list_elem_of_here.
  - apply list_elem_of_further, list_elem_of_here.
Defined.

(** C7: the body built from age "60-70", visits "5" and diagnosis
    ["Diabetes"] has [age] "60-70", [total_visits] the Number 5 and
    [diagnoses] ["Diabetes"], whatever the two test values; and in general
    [age] and [diagnoses] are carried over and [total_visits] is the
    base-10 integer parse of the visits. *)
Theorem body_rekeys_form_fields :
  (∀ glucoseValue a1cValue : string,
     age (body "60-70" "5" ["Diabetes"] glucoseValue a1cValue) = "60-70" ∧
     total_visits (body "60-70" "5" ["Diabetes"] glucoseValue a1cValue)
     = Decimal false 5 0 ∧
     of_Z 5 = Decimal false 5 0 ∧
     diagnoses (body "60-70" "5" ["Diabetes"] glucoseValue a1cValue)
     = ["Diabetes"]) ∧
  (∀ (selectedAge totalVisits : string) (selectedDiagnosesArray : list string)
     (glucoseValue a1cValue : string),
     age (body selectedAge totalVisits selectedDiagnosesArray
               glucoseValue a1cValue) = selectedAge ∧
     total_visits (body selectedAge totalVisits selectedDiagnosesArray
                        glucoseValue a1cValue) = parseInt totalVisits 10 ∧
     diagnoses (body selectedAge totalVisits selectedDiagnosesArray
                     glucoseValue a1cValue) = selectedDiagnosesArray).
Proof.
  split.
  - intros g a. repeat split; vm_compute; reflexivity.
  - intros. repeat split.
Qed.

End SubmitRequestFacts.

(** * Properties of the Predict view *)

Section PredictFacts.

Import JsNumber Http Predict.

Example split_examples :
  split "," "1,2.5, 3" = ["1"; "2.5"; " 3"] ∧
  split "," "" = [""] ∧
  split "," "1,,2," = ["1"; ""; "2"; ""].
Proof. repeat split. Qed.

Example features_body_example :
  features_body "1,2.5, 3,x,"
  = JObject [ ("features",
               JArray [ JNumber (Decimal false 1 0);
                        JNumber (Decimal false 25 (-1));
                        JNumber (Decimal false 3 0);
                        JNull;
                        JNumber (Decimal false 0 0) ]) ].
Proof. vm_compute. reflexivity. Qed.

(** Up to the answer of the network, the handler has prevented the default
    submission and sent the one request. *)
Lemma handleSubmit_unfold (network : request → promise response) (c : component) :
  handleSubmit network c
  = let c1 := {| features := features c; result := result c;
                 trace := trace c ++ [PreventDefault; Fetch (predict_request (features c))] |} in
    match network (predict_request (features c)) with
    | Rejected e => (Throw e, c1)
    | Fulfilled response =>
        match resp_json response with
        | Rejected e => (Throw e, c1)
        | Fulfilled data =>
            match get_prediction data with
            | Throw e => (Throw e, c1)
            | Ok prediction =>
                (Ok tt, {| features := features c; result := prediction;
                           trace := trace c1 |})
            end
        end
    end.
Proof.
  unfold handleSubmit, fetch, mbind, M_bind, bind, preventDefault, perform,
    readFeatures, setResult, lift, await, ret, throw.
  simpl. rewrite <- app_assoc. simpl.
  destruct (network _) as [response|e]; [|reflexivity].
  destruct (resp_json response) as [data|e]; [|reflexivity].
  destruct (get_prediction data); reflexivity.
Qed.



(** A response whose document is [null] parses, and reading its property
    then throws. *)
Lemma handleSubmit_null_response
    (network : request → promise response) (c : component) (r : response) :
  network (predict_request (features c)) = Fulfilled r →
  resp_json r = Fulfilled JNull →
  ∃ msg, (handleSubmit network c).1 = Throw (TypeError msg) ∧
         result (handleSubmit network c).2 = result c.
Proof.
  intros Hnet Hjson. rewrite handleSubmit_unfold, Hnet, Hjson. simpl.
  by eexists.
Qed.

(** C9: the handler catches nothing: when the request is rejected, or when
    reading the response as JSON fails, the handler ends with that very
    error and the [result] state is what it was. *)
Theorem predict_submit_propagates_errors
    (network : request → promise response) (c : component) (e : error) :
  (network (predict_request (features c)) = Rejected e →
   (handleSubmit network c).1 = Throw e ∧
   result (handleSubmit network c).2 = result c) ∧
  (∀ r : response,
     network (predict_request (features c)) = Fulfilled r →
     resp_json r = Rejected e →
     (handleSubmit network c).1 = Throw e ∧
     result (handleSubmit network c).2 = result c).
Proof.
  split.
  - intros Hnet. by rewrite handleSubmit_unfold, Hnet.
  - intros r Hnet Hjson. by rewrite handleSubmit_unfold, Hnet, Hjson.
Qed.

Lemma predict_submit_propagates_errors_witness :
  ((handleSubmit (λ _, Rejected (NetworkError "Failed to fetch"))
                 (setFeatures "1,2" mount)).1
   = Throw (NetworkError "Failed to fetch") ∧
   result (handleSubmit (λ _, Rejected (NetworkError "Failed to fetch"))
                        (setFeatures "1,2" mount)).2
   = Parsed (JString "")) ∧
  ((handleSubmit
      (λ _, Fulfilled {| status := 500%N;
                         resp_json := Rejected (SyntaxError "Unexpected token <") |})
      (setFeatures "1,2" mount)).1
   = Throw (SyntaxError "Unexpected token <") ∧
   result (handleSubmit
      (λ _, Fulfilled {| status := 500%N;
                         resp_json := Rejected (SyntaxError "Unexpected token <") |})
      (setFeatures "1,2" mount)).2
   = Parsed (JString "")).
Proof.
  split.
  - apply (proj1 (predict_submit_propagates_errors
                    (λ _, Rejected (NetworkError "Failed to fetch"))
                    (setFeatures "1,2" mount)
                    (NetworkError "Failed to fetch"))).
    reflexivity.
  - apply (proj2 (predict_submit_propagates_errors
                    (λ _, Fulfilled {| status := 500%N;
                                       resp_json := Rejected (SyntaxError "Unexpected token <") |})
                    (setFeatures "1,2" mount)
                    (SyntaxError "Unexpected token <"))
                 {| status := 500%N;
                    resp_json := Rejected (SyntaxError "Unexpected token <") |}).
    + reflexivity.
    + reflexivity.
Defined.

End PredictFacts.

(** * The form as a whole: every handler, every order of interactions *)

Section FormPageRuns.

Import FormPage.

Lemma filter_ne_id (v : string) (l : list string) :
  v ∉ l → filter (λ d, d ≠ v) l = l.
Proof.
  induction l as [|x l IH]; [done|].
  rewrite not_elem_of_cons. intros [Hne Hin].
  rewrite filter_cons_True by done. by rewrite IH.
Qed.

Lemma handleChange_diagnosis (c : control) (v : string) (f : form) :
  handleChange (control_name c) v f !! "diagnosis" = f !! "diagnosis".
Proof.
  unfold handleChange. apply lookup_insert_ne.
  by destruct (control_name_not_aic c).
Qed.

Lemma toggle_selection_within (A : list string) (f : form) (v : string) :
  v ∈ A → selection_within A f →
  ∃ f', handleDiagnosisChange v f = Ok f' ∧ selection_within A f'.
Proof.
  intros Hv (l & Hd & Hlen & Hnd & Hsub).
  destruct (decide (v ∈ l)) as [Hin|Hin].
  - eexists. split; [by apply toggle_selected|].
    exists (filter (λ d, d ≠ v) l).
    split; [apply diagnosis_insert|].
    split; [pose proof (filter_ne_length v l); lia|].
    split; [by apply NoDup_filter|].
    intros x Hx. apply list_elem_of_filter in Hx as [_ Hx]. by apply Hsub.
  - destruct (decide (length l < 3)) as [Hlt|Hge].
    + eexists. split; [by apply toggle_fresh|].
      exists (l ++ [v]).
      split; [apply diagnosis_insert|].
      split; [rewrite length_app; simpl; lia|].
      split.
      * apply NoDup_app. split; [done|]. split; [|apply NoDup_singleton].
        intros x Hx Hxv. apply list_elem_of_singleton in Hxv. by subst.
      * intros x Hx. apply elem_of_app in Hx as [Hx|Hx]; [by apply Hsub|].
        apply list_elem_of_singleton in Hx. by subst.
    + exists f. split; [apply (toggle_full f l v Hd Hin); lia|].
      by exists l.
Qed.

Lemma run_selection_within (A : list string) (evs : list interaction) :
  ∀ p,
    toggled evs ⊆ A →
    selection_within A (formData p) →
    Forall (λ st, selection_within A (nav_formData st)) (payloads (effects p)) →
    ∃ p', run evs p = Ok p' ∧
          selection_within A (formData p') ∧
          Forall (λ st, selection_within A (nav_formData st))
                 (payloads (effects p')) ∧
          length (payloads (effects p'))
          = length (payloads (effects p)) + submits evs.
Proof.
  induction evs as [|i evs IH]; intros p HA Hsel Hnav; simpl.
  - exists p. repeat split; [done..|lia].
  - destruct i as [c v|v|]; simpl in *.
    + destruct (IH {| formData := handleChange (control_name c) v (formData p);
                      effects := effects p |}) as (p' & Hrun & Hp'); [done| |done|].
      { destruct Hsel as (l & Hd & Hl). exists l. split; [|done].
        apply diagnosis_Some. simpl. rewrite handleChange_diagnosis.
        by apply diagnosis_Some. }
      by exists p'.
    + destruct (toggle_selection_within A (formData p) v) as (f' & -> & Hf');
        [apply HA, list_elem_of_here|done|]. simpl.
      apply (IH {| formData := f'; effects := effects p |}); [|done..].
      intros x Hx. by apply HA, list_elem_of_further.
    + destruct (IH {| formData := formData p;
                      effects := effects p ++ handleSubmit (formData p) |})
        as (p' & Hrun & Hsel' & Hnav' & Hlen); [done|done| |].
      { simpl. rewrite payloads_app, payloads_handleSubmit.
        apply Forall_app. split; [done|]. by apply Forall_singleton. }
      exists p'. repeat split; [done..|].
      rewrite Hlen. simpl. rewrite payloads_app, payloads_handleSubmit.
      rewrite length_app. simpl. lia.
Qed.

Lemma selection_within_initial (A : list string) :
  selection_within A initialFormData.
Proof.
  exists []. split; [reflexivity|]. split; [simpl; lia|].
  split; [apply NoDup_nil_2|]. intros x Hx. by apply elem_of_nil in Hx.
Qed.

(** X1: whatever the user does with the form, in whatever order (changing
    the selects and the input, ticking any check box, submitting), no handler
    throws, and the [diagnosis] field is an array of at most three labels,
    without repetition, each of them one that was ticked. *)
Theorem every_run_keeps_selection (evs : list interaction) :
  ∃ p l, run evs mount = Ok p ∧
         diagnosis (formData p) = Some l ∧
         length l ≤ 3 ∧ NoDup l ∧ l ⊆ toggled evs.
Proof.
  destruct (run_selection_within (toggled evs) evs mount)
    as (p & Hrun & (l & Hd & Hl) & _); [done| |apply Forall_nil_2|].
  { apply selection_within_initial. }
  by exists p, l.
Qed.

(** X2: the form navigates once per submission, and every payload it has
    navigated with carries a [diagnosis] array of at most three distinct
    labels, each one that was ticked: the array the request snippet expects. *)
Theorem every_payload_has_at_most_three (evs : list interaction) :
  ∃ p, run evs mount = Ok p ∧
       length (payloads (effects p)) = submits evs ∧
       Forall (λ st, ∃ l, diagnosis (nav_formData st) = Some l ∧
                          length l ≤ 3 ∧ NoDup l ∧ l ⊆ toggled evs)
              (payloads (effects p)).
Proof.
  destruct (run_selection_within (toggled evs) evs mount)
    as (p & Hrun & _ & Hnav & Hlen); [done| |apply Forall_nil_2|].
  { apply selection_within_initial. }
  exists p. split; [done|]. split; [by rewrite Hlen|done].
Qed.

Lemma control_value_lookup (c : control) (f : form) :
  control_value c f = f !! control_name c.
Proof. by destruct c. Qed.

Lemma control_name_inj (c c' : control) :
  String.eqb (control_name c') (control_name c) = true ↔ c' = c.
Proof. destruct c, c'; simpl; split; (done || discriminate). Qed.

Lemma step_control_value (c : control) (i : interaction) (p : page) :
  is_Some (diagnosis (formData p)) →
  ∃ p', step i p = Ok p' ∧
        is_Some (diagnosis (formData p')) ∧
        control_value c (formData p')
        = match i with
          | Change c' v =>
              if String.eqb (control_name c') (control_name c)
              then Some (VStr v) else control_value c (formData p)
          | _ => control_value c (formData p)
          end.
Proof.
  intros [l Hd]. destruct i as [c' v|v|]; simpl.
  - eexists. split; [reflexivity|]. simpl. split.
    + exists l. apply diagnosis_Some. rewrite handleChange_diagnosis.
      by apply diagnosis_Some.
    + rewrite !control_value_lookup. unfold handleChange.
      destruct (String.eqb (control_name c') (control_name c)) eqn:E.
      * apply String.eqb_eq in E. rewrite E. apply lookup_insert_eq.
      * apply String.eqb_neq in E. by rewrite lookup_insert_ne.
  - destruct (toggle_other_fields (formData p) l v Hd) as (f' & l' & -> & Hd' & Hk).
    simpl. eexists. split; [reflexivity|]. simpl. split; [by exists l'|].
    rewrite !control_value_lookup. apply Hk.
    by destruct (control_name_not_aic c).
  - eexists. split; [reflexivity|]. simpl. split; [by exists l|done].
Qed.

Lemma run_control_value (c : control) (evs : list interaction) :
  ∀ p, is_Some (diagnosis (formData p)) →
  ∃ p', run evs p = Ok p' ∧
        control_value c (formData p')
        = match last_change c evs with
          | Some v => Some (VStr v)
          | None => control_value c (formData p)
          end.
Proof.
  induction evs as [|i evs IH]; intros p Hp; simpl.
  - by exists p.
  - destruct (step_control_value c i p Hp) as (p1 & -> & Hp1 & Hv). simpl.
    destruct (IH p1 Hp1) as (p' & Hrun & Hlast).
    exists p'. split; [done|]. rewrite Hlast, Hv.
    destruct (last_change c evs); [done|].
    destruct i as [c' v|v|]; [|done..].
    by destruct (String.eqb (control_name c') (control_name c)).
Qed.

(** X3: after any sequence of interactions each of the four controls
    displays the value it was given last, whatever was ticked, changed
    elsewhere or submitted in between; a control never changed displays its
    initial value, which is the empty string for the age, visits and glucose
    controls and [undefined] for the A1C select. *)
Theorem controls_display_last_value (evs : list interaction) (c : control) :
  ∃ p, run evs mount = Ok p ∧
       control_value c (formData p)
       = match last_change c evs with
         | Some v => Some (VStr v)
         | None => match c with
                   | A1cSelect => None
                   | _ => Some (VStr "")
                   end
         end.
Proof.
  destruct (run_control_value c evs mount) as (p & Hrun & Hv); [by exists []|].
  exists p. split; [done|]. rewrite Hv.
  destruct (last_change c evs); [done|]. by destruct c.
Qed.

(** X4: ticking a box that is not selected, while fewer than three are, and
    then clearing it again gives back exactly the state before. *)
Theorem tick_then_clear_restores (f : form) (l : list string) (v : string) :
  diagnosis f = Some l → v ∉ l → length l < 3 →
  except_bind (handleDiagnosisChange v f) (handleDiagnosisChange v) = Ok f.
Proof.
  intros Hd Hin Hlt.
  rewrite (toggle_fresh f l v Hd Hin Hlt). simpl.
  rewrite (toggle_selected _ (l ++ [v]) v).
  - rewrite insert_insert_eq, filter_app, (filter_ne_id v l Hin).
    rewrite filter_cons_False, filter_nil by (intros Hne; by apply Hne).
    rewrite app_nil_r. f_equal. apply insert_id. by apply diagnosis_Some.
  - apply diagnosis_insert.
  - apply elem_of_app. right. apply list_elem_of_here.
Qed.

Lemma tick_then_clear_restores_witness :
  except_bind
    (handleDiagnosisChange "Injury"
       (<["diagnosis" := VArr ["Diabetes"]]> initialFormData))
    (handleDiagnosisChange "Injury")
  = Ok (<["diagnosis" := VArr ["Diabetes"]]> initialFormData).
Proof.
  apply (tick_then_clear_restores
           (<["diagnosis" := VArr ["Diabetes"]]> initialFormData)
           ["Diabetes"] "Injury").
  - reflexivity.
  - intros H. apply list_elem_of_singleton in H. discriminate H.
  - simpl. lia.
Defined.



Lemma checked_array (d : string) (f : form) (l : list string) :
  diagnosis f = Some l → checked d f = Ok (bool_decide (d ∈ l)).
Proof.
  intros Hd. apply diagnosis_Some in Hd. unfold checked. by rewrite Hd.
Qed.

(** X6: on a form whose [diagnosis] is an array, a click on the box of [v]
    clears it when it was checked, checks it when it was not and fewer than
    three are selected, and leaves it unchecked when three are; the box of
    every other label is drawn as before. *)
Theorem toggle_changes_only_its_box (f : form) (l : list string) (v : string) :
  diagnosis f = Some l →
  ∃ f', handleDiagnosisChange v f = Ok f' ∧
        checked v f'
        = Ok (if bool_decide (v ∈ l) then false else bool_decide (length l < 3)) ∧
        (∀ d, d ≠ v → checked d f' = checked d f).
Proof.
  intros Hd.
  destruct (decide (v ∈ l)) as [Hin|Hin].
  - eexists. split; [by apply toggle_selected|].
    rewrite bool_decide_eq_true_2 by done. split.
    + rewrite (checked_array _ _ _ (diagnosis_insert _ _)).
      rewrite bool_decide_eq_false_2; [done|].
      rewrite list_elem_of_filter. intros [Hne _]. by apply Hne.
    + intros d Hne.
      rewrite (checked_array _ _ _ (diagnosis_insert _ _)), (checked_array _ _ _ Hd).
      f_equal. apply bool_decide_ext. rewrite list_elem_of_filter. tauto.
  - rewrite (bool_decide_eq_false_2 (v ∈ l)) by done.
    destruct (decide (length l < 3)) as [Hlt|Hge].
    + eexists. split; [by apply toggle_fresh|].
      rewrite (bool_decide_eq_true_2 (length l < 3)) by done. split.
      * rewrite (checked_array _ _ _ (diagnosis_insert _ _)).
        rewrite bool_decide_eq_true_2; [done|].
        apply elem_of_app. right. apply list_elem_of_here.
      * intros d Hne.
        rewrite (checked_array _ _ _ (diagnosis_insert _ _)), (checked_array _ _ _ Hd).
        f_equal. apply bool_decide_ext.
        rewrite elem_of_app, list_elem_of_singleton. tauto.
    + exists f. split; [apply (toggle_full f l v Hd Hin); lia|].
      rewrite (bool_decide_eq_false_2 (length l < 3)) by done. split; [|done].
      rewrite (checked_array _ _ _ Hd). by rewrite bool_decide_eq_false_2.
Qed.

Lemma toggle_changes_only_its_box_witness :
  ∃ f',
    handleDiagnosisChange "Circulatory"
      (<["diagnosis" := VArr ["Diabetes"; "Injury"; "Other"]]> initialFormData)
    = Ok f' ∧
    checked "Circulatory" f'
    = Ok (if bool_decide ("Circulatory" ∈ ["Diabetes"; "Injury"; "Other"])
          then false
          else bool_decide (length ["Diabetes"; "Injury"; "Other"] < 3)) ∧
    (∀ d, d ≠ "Circulatory" →
          checked d f'
          = checked d (<["diagnosis" := VArr ["Diabetes"; "Injury"; "Other"]]>
                         initialFormData)).
Proof.
  apply (toggle_changes_only_its_box
           (<["diagnosis" := VArr ["Diabetes"; "Injury"; "Other"]]> initialFormData)
           ["Diabetes"; "Injury"; "Other"] "Circulatory").
  reflexivity.
Defined.

(** X7: whatever the user does, the seven check boxes can all be drawn (the
    [includes] call of the render never throws) and at most three of them
    are drawn checked. *)
Theorem at_most_three_boxes_checked (evs : list interaction) :
  ∃ (p : page) (l : list string),
    run evs mount = Ok p ∧
    (∀ d, checked d (formData p) = Ok (bool_decide (d ∈ l))) ∧
         length (filter (λ d, d ∈ l) diagnosis_options) ≤ 3.
Proof.
  destruct (run_selection_within (toggled evs) evs mount)
    as (p & Hrun & (l & Hd & Hlen & Hnd & _) & _);
    [done|apply selection_within_initial|apply Forall_nil_2|].
  exists p, l. split; [done|]. split.
  - intros d. by apply checked_array.
  - assert (filter (λ d, d ∈ l) diagnosis_options ⊆+ l) as Hsub.
    { apply NoDup_submseteq.
      - apply NoDup_filter. compute_done.
      - intros x Hx. by apply list_elem_of_filter in Hx as [Hx _]. }
    apply submseteq_length in Hsub. lia.
Qed.

(** X8: the order in which the user fills the form does not matter: changes
    of two different controls commute, a change and a click on a check box
    commute, and of two changes of one control the later one stands. *)
Theorem interactions_commute (p : page) (c1 c2 : control) (v1 v2 d : string) :
  (c1 ≠ c2 →
   run [Change c1 v1; Change c2 v2] p = run [Change c2 v2; Change c1 v1] p) ∧
  run [Change c1 v1; Toggle d] p = run [Toggle d; Change c1 v1] p ∧
  run [Change c1 v1; Change c1 v2] p = run [Change c1 v2] p.
Proof.
  split; [|split]; simpl.
  - intros Hne. unfold handleChange. do 2 f_equal.
    apply insert_insert_ne.
    intros Heq. apply Hne. symmetry in Heq.
    apply control_name_inj. by apply String.eqb_eq.
  - destruct (control_name_not_aic c1) as [_ Hc].
    unfold handleDiagnosisChange. rewrite handleChange_diagnosis.
    destruct (formData p !! "diagnosis") as [[s|l]|]; simpl; [| |done].
    + destruct (str_includes s d); [done|].
      case_bool_decide; simpl; [|done].
      unfold handleChange. do 2 f_equal. by apply insert_insert_ne.
    + repeat case_bool_decide; simpl; try done;
        unfold handleChange; do 2 f_equal; by apply insert_insert_ne.
  - unfold handleChange. do 2 f_equal. apply insert_insert_eq.
Qed.

Lemma interactions_commute_witness :
  run [Change AgeSelect "60-70"; Change VisitsInput "5"] mount
  = run [Change VisitsInput "5"; Change AgeSelect "60-70"] mount.
Proof.
  apply (proj1 (interactions_commute mount AgeSelect VisitsInput "60-70" "5" "")).
  discriminate.
Defined.

End FormPageRuns.

(** * Reading numbers: decimal numerals, labels and blanks *)

Section NumberFacts.

Import JsNumber.
Local Open Scope N_scope.

Lemma append_String (c : ascii) (s r : string) :
  String c s +:+ r = String c (s +:+ r).
Proof. reflexivity. Qed.

Lemma scan_digits_step (radix acc v : N) (k : nat) (c : ascii) (s : string) :
  digit_of radix c = Some v →
  scan_digits radix acc k (String c s) = scan_digits radix (radix * acc + v) (S k) s.
Proof. intros H. simpl. by rewrite H. Qed.

Ltac digit_value :=
  match goal with
  | |- context [N_of_ascii ?c - 48] =>
      let v := eval vm_compute in (N_of_ascii c - 48) in
      change (N_of_ascii c - 48) with v
  end.

Lemma scan_digits_uint_pos (d : Decimal.uint) :
  ∀ (acc : positive) (k : nat),
    scan_digits 10 (Npos acc) k (NilEmpty.string_of_uint d)
    = (Npos (Pos.of_uint_acc d acc), (k + Decimal.nb_digits d)%nat, EmptyString).
Proof.
  induction d; intros acc k;
    [ simpl; by rewrite Nat.add_0_r | .. ];
    cbn [NilEmpty.string_of_uint Pos.of_uint_acc Decimal.nb_digits];
    erewrite scan_digits_step by reflexivity;
    rewrite <- Nat.add_succ_comm;
    rewrite <- IHd; f_equal; digit_value; lia.
Qed.

Lemma scan_digits_uint (d : Decimal.uint) :
  ∀ k : nat,
    scan_digits 10 0 k (NilEmpty.string_of_uint d)
    = (Pos.of_uint d, (k + Decimal.nb_digits d)%nat, EmptyString).
Proof.
  induction d; intros k;
    [ simpl; by rewrite Nat.add_0_r | .. ];
    cbn [NilEmpty.string_of_uint Pos.of_uint Decimal.nb_digits];
    erewrite scan_digits_step by reflexivity;
    rewrite <- Nat.add_succ_comm.
  1: rewrite <- IHd; reflexivity.
  all: rewrite <- scan_digits_uint_pos; reflexivity.
Qed.

Lemma decimal_head (n : N) :
  ∃ c s v, NilEmpty.string_of_uint (N.to_uint n) = String c s ∧
           digit_of 10 c = Some v.
Proof.
  destruct n as [|p]; simpl.
  - by eexists _, _, _.
  - pose proof (DecimalPos.Unsigned.to_uint_nonnil p) as Hn.
    destruct (Pos.to_uint p); [done|..]; simpl; by eexists _, _, _.
Qed.

Lemma parseInt_digit (c : ascii) (s : string) (v : N) :
  digit_of 10 c = Some v →
  parseInt (String c s) 10
  = match scan_digits 10 0 0 (String c s) with
    | (m, S _, _) => to_number false m 0
    | _ => NaN
    end.
Proof.
  intros H.
  destruct c as [[] [] [] [] [] [] [] []]; try discriminate H;
  unfold parseInt; cbn -[to_number scan_digits]; destruct s; reflexivity.
Qed.

Lemma scan_digits_uint_pos_app (d : Decimal.uint) (rest : string) :
  ∀ (acc : positive) (k : nat),
    scan_digits 10 (Npos acc) k (NilEmpty.string_of_uint d +:+ rest)
    = scan_digits 10 (Npos (Pos.of_uint_acc d acc)) (k + Decimal.nb_digits d)%nat rest.
Proof.
  induction d; intros acc k;
    [ simpl; by rewrite Nat.add_0_r | .. ];
    cbn [NilEmpty.string_of_uint Pos.of_uint_acc Decimal.nb_digits];
    rewrite append_String;
    erewrite scan_digits_step by reflexivity;
    rewrite <- Nat.add_succ_comm;
    rewrite <- IHd; f_equal; digit_value; lia.
Qed.

Lemma scan_digits_uint_app (d : Decimal.uint) (rest : string) :
  ∀ k : nat,
    scan_digits 10 0 k (NilEmpty.string_of_uint d +:+ rest)
    = scan_digits 10 (Pos.of_uint d) (k + Decimal.nb_digits d)%nat rest.
Proof.
  induction d; intros k;
    [ simpl; by rewrite Nat.add_0_r | .. ];
    cbn [NilEmpty.string_of_uint Pos.of_uint Decimal.nb_digits];
    rewrite append_String;
    erewrite scan_digits_step by reflexivity;
    rewrite <- Nat.add_succ_comm.
  1: rewrite <- IHd; reflexivity.
  all: rewrite <- scan_digits_uint_pos_app; reflexivity.
Qed.

Lemma scan_digits_stop (acc : N) (k : nat) (rest : string) :
  no_digit_ahead rest → scan_digits 10 acc k rest = (acc, k, rest).
Proof. destruct rest as [|c r]; simpl; [done|]. by intros ->. Qed.

Lemma nb_digits_to_uint (n : N) : ∃ k, Decimal.nb_digits (N.to_uint n) = S k.
Proof.
  destruct n as [|p]; simpl; [by eexists|].
  pose proof (DecimalPos.Unsigned.to_uint_nonnil p) as Hn.
  destruct (Pos.to_uint p); [done|..]; by eexists.
Qed.

Lemma parseInt_decimal (n : N) (rest : string) :
  no_digit_ahead rest →
  parseInt (NilEmpty.string_of_uint (N.to_uint n) +:+ rest) 10 = to_number false n 0.
Proof.
  intros Hrest.
  destruct (decimal_head n) as (c & s & v & Hs & Hc).
  pose proof (scan_digits_uint_app (N.to_uint n) rest 0) as Hscan.
  rewrite Hs in *. rewrite append_String in *.
  rewrite (parseInt_digit c _ v Hc), Hscan.
  rewrite scan_digits_stop by done.
  change (Pos.of_uint (N.to_uint n)) with (N.of_uint (N.to_uint n)).
  rewrite DecimalN.Unsigned.of_to.
  destruct (nb_digits_to_uint n) as [k ->]. reflexivity.
Qed.

Lemma digit_not_white_space (c : ascii) (v : N) :
  digit_of 10 c = Some v → is_white_space c = false.
Proof. destruct c as [[] [] [] [] [] [] [] []]; (discriminate || reflexivity). Qed.

Lemma trimEnd_uint (d : Decimal.uint) :
  trimEnd (NilEmpty.string_of_uint d) = NilEmpty.string_of_uint d.
Proof.
  induction d; [done|..];
    cbn [NilEmpty.string_of_uint trimEnd]; rewrite IHd;
    by destruct (NilEmpty.string_of_uint d).
Qed.

Lemma scan_non_decimal_uint (d : Decimal.uint) :
  scan_non_decimal (NilEmpty.string_of_uint d) = None.
Proof. destruct d as [|d|d|d|d|d|d|d|d|d|d]; try done. by destruct d. Qed.

Lemma scan_decimal_digit (c : ascii) (s : string) (v : N) :
  digit_of 10 c = Some v →
  scan_decimal (String c s)
  = let '(int_part, n1, r1) := scan_digits 10 0 0 (String c s) in
    match r1 with
    | String "." r2 =>
        let '(m, n2, r3) := scan_digits 10 int_part 0 r2 in
        match n1, n2 with
        | O, O => None
        | _, _ =>
            let '(e, rest) := scan_exponent r3 in
            Some (to_number false m (e - Z.of_nat n2), rest)
        end
    | _ =>
        match n1 with
        | O => None
        | S _ =>
            let '(e, rest) := scan_exponent r1 in
            Some (to_number false int_part e, rest)
        end
    end.
Proof.
  intros H.
  destruct c as [[] [] [] [] [] [] [] []]; try discriminate H; reflexivity.
Qed.

Lemma Number_decimal (n : N) :
  Number (NilEmpty.string_of_uint (N.to_uint n)) = to_number false n 0.
Proof.
  destruct (decimal_head n) as (c & s & v & Hs & Hc).
  pose proof (scan_digits_uint (N.to_uint n) 0) as Hscan.
  pose proof (trimEnd_uint (N.to_uint n)) as Htrim.
  pose proof (scan_non_decimal_uint (N.to_uint n)) as Hnd.
  unfold Number, trim. rewrite Hs in *.
  cbn [trimStart]. rewrite (digit_not_white_space c v Hc), Htrim, Hnd.
  rewrite (scan_decimal_digit c s v Hc), Hscan.
  change (Pos.of_uint (N.to_uint n)) with (N.of_uint (N.to_uint n)).
  rewrite DecimalN.Unsigned.of_to.
  destruct (nb_digits_to_uint n) as [k ->]. reflexivity.
Qed.

Lemma scan_decimal_letter (c : ascii) (s : string) :
  is_letter c = true → c ≠ "I"%char → scan_decimal (String c s) = None.
Proof.
  intros H HI.
  destruct c as [[] [] [] [] [] [] [] []]; try discriminate H; try done.
Qed.

Lemma letter_not_white_space (c : ascii) :
  is_letter c = true → is_white_space c = false.
Proof. destruct c as [[] [] [] [] [] [] [] []]; (discriminate || reflexivity). Qed.

Lemma parseFloat_letter (c : ascii) (s : string) :
  is_letter c = true → c ≠ "I"%char → parseFloat (String c s) = NaN.
Proof.
  intros H HI. unfold parseFloat. cbn [trimStart].
  rewrite (letter_not_white_space c H). by rewrite scan_decimal_letter.
Qed.

Lemma trimEnd_head (c : ascii) (s : string) :
  is_white_space c = false → ∃ t, trimEnd (String c s) = String c t.
Proof.
  intros H. cbn [trimEnd]. destruct (trimEnd s); rewrite ?H; by eexists.
Qed.

Lemma scan_non_decimal_letter (c : ascii) (s : string) :
  is_letter c = true → scan_non_decimal (String c s) = None.
Proof.
  intros H. destruct c as [[] [] [] [] [] [] [] []]; try discriminate H; done.
Qed.

Lemma Number_letter (c : ascii) (s : string) :
  is_letter c = true → c ≠ "I"%char → Number (String c s) = NaN.
Proof.
  intros H HI. unfold Number, trim. cbn [trimStart].
  rewrite (letter_not_white_space c H).
  destruct (trimEnd_head c s (letter_not_white_space c H)) as [t ->].
  by rewrite scan_non_decimal_letter, scan_decimal_letter.
Qed.

Lemma trimStart_blank (s : string) : blank s → trimStart s = EmptyString.
Proof.
  unfold blank. induction s as [|c s IH]; [done|]. simpl.
  intros H. apply Forall_cons in H as [-> H]. by apply IH.
Qed.

Lemma Number_blank (s : string) : blank s → Number s = Decimal false 0 0.
Proof. intros H. unfold Number, trim. by rewrite trimStart_blank. Qed.

Lemma parseInt_blank (s : string) : blank s → parseInt s 10 = NaN.
Proof. intros H. unfold parseInt. by rewrite trimStart_blank. Qed.

Lemma parseInt_integer (s : string) (radix : N) :
  match parseInt s radix with
  | Decimal _ _ e => e = 0%Z
  | _ => True
  end.
Proof.
  unfold parseInt.
  destruct (scan_sign (trimStart s)) as [neg t].
  destruct (negb _ && _); [done|].
  match goal with |- context [let '(_, _) := ?x in _] => destruct x as [R u] end.
  destruct (scan_digits R 0 0 u) as [[m count] r].
  destruct count; [done|]. unfold to_number. by destruct (overflows m 0).
Qed.

End NumberFacts.

(** * Splitting at commas *)

Section SplitFacts.

Import Predict.

Lemma split_nonempty (sep : ascii) (s : string) : split sep s ≠ [].
Proof.
  destruct s as [|c s]; simpl; [done|].
  destruct (Ascii.eqb c sep); [done|]. by destruct (split sep s).
Qed.

Lemma split_length (sep : ascii) (s : string) :
  length (split sep s) = S (occurrences sep s).
Proof.
  unfold occurrences. induction s as [|c s IH]; [done|].
  cbn [split list_ascii_of_string]. rewrite filter_cons.
  destruct (Ascii.eqb_spec c sep) as [->|Hne].
  - rewrite decide_True by done. simpl. by rewrite IH.
  - rewrite decide_False by done.
    pose proof (split_nonempty sep s).
    destruct (split sep s); [done|]. by rewrite <- IH.
Qed.

Lemma split_pieces_free (sep : ascii) (s : string) :
  Forall (free_of sep) (split sep s).
Proof.
  unfold free_of. induction s as [|c s IH]; simpl.
  - apply Forall_singleton, not_elem_of_nil.
  - destruct (Ascii.eqb_spec c sep) as [->|Hne].
    + apply Forall_cons. split; [apply not_elem_of_nil|done].
    + pose proof (split_nonempty sep s).
      destruct (split sep s) as [|piece rest]; [done|].
      apply Forall_cons in IH as [Hp Hrest].
      apply Forall_cons. split; [|done]. simpl.
      apply not_elem_of_cons. split; [congruence|done].
Qed.

Lemma concat_split (sep : ascii) (s : string) :
  String.concat (String sep EmptyString) (split sep s) = s.
Proof.
  induction s as [|c s IH]; [done|]. cbn [split].
  pose proof (split_nonempty sep s) as Hne.
  destruct (Ascii.eqb_spec c sep) as [->|Hc].
  - destruct (split sep s) as [|piece rest]; [done|].
    change (String sep (String.concat (String sep EmptyString) (piece :: rest))
            = String sep s).
    by rewrite IH.
  - destruct (split sep s) as [|piece rest]; [done|].
    destruct rest as [|y r].
    + simpl in *. by rewrite IH.
    + change (String c (String.concat (String sep EmptyString) (piece :: y :: r))
              = String c s).
      by rewrite IH.
Qed.

Lemma split_free (sep : ascii) (s : string) :
  free_of sep s → split sep s = [s].
Proof.
  unfold free_of. induction s as [|c s IH]; [done|]. simpl.
  rewrite not_elem_of_cons. intros [Hne Hs].
  destruct (Ascii.eqb_spec c sep) as [->|_]; [done|]. by rewrite IH.
Qed.

Lemma split_append (sep : ascii) (s t : string) :
  free_of sep s →
  split sep (s +:+ String sep t) = s :: split sep t.
Proof.
  unfold free_of. induction s as [|c s IH].
  - intros _. change (EmptyString +:+ String sep t) with (String sep t).
    cbn [split]. by rewrite Ascii.eqb_refl.
  - simpl list_ascii_of_string. rewrite not_elem_of_cons. intros [Hne Hs].
    rewrite append_String. cbn [split].
    destruct (Ascii.eqb_spec c sep) as [->|_]; [done|]. by rewrite IH.
Qed.

Lemma split_concat (sep : ascii) (l : list string) :
  l ≠ [] → Forall (free_of sep) l →
  split sep (String.concat (String sep EmptyString) l) = l.
Proof.
  induction l as [|x l IH]; [done|]. intros _ Hall.
  apply Forall_cons in Hall as [Hx Hl].
  destruct l as [|y l].
  - simpl. by apply split_free.
  - cbn [String.concat]. rewrite append_String.
    change (EmptyString +:+ ?z) with z.
    rewrite split_append by done. f_equal. by apply IH.
Qed.

End SplitFacts.

(** * The request of the [/submit] snippet for every input *)

Section SubmitRequestInputs.

Import JsNumber Http SubmitRequest.
Local Open Scope N_scope.

(** X9: when the visits text starts with the decimal numeral of a natural
    number [n] and does not go on with a digit (as "5", "5.7" or "5 visits"),
    [total_visits] is the Number [n]: what follows the numeral is dropped.
    The bound is the one from which a real rounds to [Infinity]. *)
Theorem total_visits_reads_leading_numeral
    (n : N) (rest selectedAge : string) (selectedDiagnosesArray : list string)
    (glucoseValue a1cValue : string) :
  no_digit_ahead rest → n < overflow_threshold →
  total_visits
    (body selectedAge (NilEmpty.string_of_uint (N.to_uint n) +:+ rest)
          selectedDiagnosesArray glucoseValue a1cValue)
  = Decimal false n 0.
Proof.
  intros Hrest Hn. simpl. rewrite parseInt_decimal by done.
  unfold to_number, overflows. by rewrite (proj2 (N.leb_gt _ _) Hn).
Qed.

Lemma total_visits_reads_leading_numeral_witness :
  total_visits (body "60-70" "12.5" ["Diabetes"] "high" "normal")
  = Decimal false 12 0.
Proof.
  apply (total_visits_reads_leading_numeral 12 ".5" "60-70" ["Diabetes"]
           "high" "normal").
  - reflexivity.
  - reflexivity.
Defined.

(** X10: when the visits text is empty or blank, [total_visits] is [NaN] and
    the request to http://localhost:8000/submit carries [null] for it. *)
Theorem blank_visits_are_sent_as_null
    (selectedAge totalVisits : string) (selectedDiagnosesArray : list string)
    (glucoseValue a1cValue : string) :
  blank totalVisits →
  total_visits (body selectedAge totalVisits selectedDiagnosesArray
                     glucoseValue a1cValue) = NaN ∧
  submit_request (body selectedAge totalVisits selectedDiagnosesArray
                       glucoseValue a1cValue)
  = {| url := "http://localhost:8000/submit";
       method := "POST";
       headers := [ ("Content-Type", "application/json") ];
       req_body :=
         JObject [ ("age", JString selectedAge);
                   ("total_visits", JNull);
                   ("diagnoses", JArray (JString <$> selectedDiagnosesArray));
                   ("glucose_test", stringify_number (parseFloat glucoseValue));
                   ("a1c_test", stringify_number (parseFloat a1cValue)) ] |}.
Proof.
  intros Hb. unfold submit_request, stringify_body, body. simpl.
  by rewrite parseInt_blank.
Qed.

Lemma blank_visits_are_sent_as_null_witness :
  total_visits (body "" "" [] "" "") = NaN ∧
  submit_request (body "" "" [] "" "")
  = {| url := "http://localhost:8000/submit";
       method := "POST";
       headers := [ ("Content-Type", "application/json") ];
       req_body :=
         JObject [ ("age", JString "");
                   ("total_visits", JNull);
                   ("diagnoses", JArray (JString <$> []));
                   ("glucose_test", stringify_number (parseFloat ""));
                   ("a1c_test", stringify_number (parseFloat "")) ] |}.
Proof.
  apply (blank_visits_are_sent_as_null "" "" [] "" "").
  apply Forall_nil_2.
Defined.

(** X11: whatever labels the two test selects offer, as long as a label
    starts with a letter other than the capital I, the request carries
    [null] for [glucose_test] and for [a1c_test]. *)
Theorem labels_are_sent_as_null
    (selectedAge totalVisits : string) (selectedDiagnosesArray : list string)
    (g a : ascii) (glucoseRest a1cRest : string) :
  is_letter g = true → g ≠ "I"%char →
  is_letter a = true → a ≠ "I"%char →
  req_body (submit_request
              (body selectedAge totalVisits selectedDiagnosesArray
                    (String g glucoseRest) (String a a1cRest)))
  = JObject [ ("age", JString selectedAge);
              ("total_visits", stringify_number (parseInt totalVisits 10));
              ("diagnoses", JArray (JString <$> selectedDiagnosesArray));
              ("glucose_test", JNull);
              ("a1c_test", JNull) ].
Proof.
  intros Hg HgI Ha HaI. unfold submit_request, stringify_body, body.
  cbn [req_body age total_visits diagnoses glucose_test a1c_test].
  by rewrite !parseFloat_letter.
Qed.

Lemma labels_are_sent_as_null_witness :
  req_body (submit_request (body "60-70" "5" ["Diabetes"] "high" "normal"))
  = JObject [ ("age", JString "60-70");
              ("total_visits", stringify_number (parseInt "5" 10));
              ("diagnoses", JArray (JString <$> ["Diabetes"]));
              ("glucose_test", JNull);
              ("a1c_test", JNull) ].
Proof.
  apply (labels_are_sent_as_null "60-70" "5" ["Diabetes"] "h" "n" "igh" "ormal").
  - reflexivity.
  - discriminate.
  - reflexivity.
  - discriminate.
Defined.

End SubmitRequestInputs.

(** * The Predict view for every input and every answer *)

Section PredictInputs.

Import JsNumber Http Predict.

(** X12: [split] and joining with commas are inverse to each other: the
    pieces of a text joined again give the text, there is one piece more
    than there are commas (so never no piece), no piece holds a comma; and a
    non-empty list of comma-free texts is what its joined text splits into. *)
Theorem split_inverts_joining (s : string) (l : list string) :
  String.concat "," (split "," s) = s ∧
  length (split "," s) = S (occurrences "," s) ∧
  Forall (free_of ",") (split "," s) ∧
  (l ≠ [] → Forall (free_of ",") l → split "," (String.concat "," l) = l).
Proof.
  split; [apply concat_split|].
  split; [apply split_length|].
  split; [apply split_pieces_free|].
  apply split_concat.
Qed.

Lemma split_inverts_joining_witness :
  split "," (String.concat "," ["1"; ""; " 2.5"]) = ["1"; ""; " 2.5"].
Proof.
  apply (proj2 (proj2 (proj2 (split_inverts_joining "" ["1"; ""; " 2.5"])))).
  - discriminate.
  - unfold free_of. repeat apply Forall_cons_2; [..|apply Forall_nil_2];
      compute_done.
Defined.



Lemma uint_free_of_comma (d : Decimal.uint) :
  free_of "," (NilEmpty.string_of_uint d).
Proof.
  unfold free_of. induction d; simpl;
    [apply not_elem_of_nil|..];
    (apply not_elem_of_cons; split; [discriminate|done]).
Qed.

(** X14: natural numbers written in decimal and separated by commas are
    sent as exactly those Numbers, in order (below the bound from which a
    real rounds to [Infinity]). *)
Theorem numerals_are_sent_as_numbers (ns : list N) :
  ns ≠ [] →
  Forall (λ n, (n < overflow_threshold)%N) ns →
  features_body
    (String.concat "," ((λ n, NilEmpty.string_of_uint (N.to_uint n)) <$> ns))
  = JObject [ ("features", JArray ((λ n, JNumber (Decimal false n 0)) <$> ns)) ].
Proof.
  intros Hne Hall. unfold features_body. do 4 f_equal.
  rewrite split_concat.
  - rewrite <- !list_fmap_compose. apply Forall_fmap_ext_1.
    eapply Forall_impl; [exact Hall|]. intros n Hn. simpl.
    rewrite Number_decimal. unfold to_number, overflows.
    by rewrite (proj2 (N.leb_gt _ _) Hn).
  - by destruct ns.
  - apply Forall_fmap, Forall_true. intros n. apply uint_free_of_comma.
Qed.

Lemma numerals_are_sent_as_numbers_witness :
  features_body "3,0,120"
  = JObject [ ("features",
               JArray [ JNumber (Decimal false 3 0);
                        JNumber (Decimal false 0 0);
                        JNumber (Decimal false 120 0) ]) ].
Proof.
  apply (numerals_are_sent_as_numbers [3; 0; 120]%N).
  - discriminate.
  - repeat apply Forall_cons_2; [..|apply Forall_nil_2]; reflexivity.
Defined.

Lemma blank_free_of_comma (s : string) : blank s → free_of "," s.
Proof.
  unfold blank, free_of. intros Hb Hin.
  rewrite Forall_forall in Hb. apply Hb in Hin. discriminate Hin.
Qed.

(** X15: a features text that is empty or blank is not held back: the
    request is sent with the single feature 0. *)
Theorem blank_features_are_sent_as_zero (features : string) :
  blank features →
  features_body features
  = JObject [ ("features", JArray [ JNumber (Decimal false 0 0) ]) ].
Proof.
  intros Hb. unfold features_body.
  rewrite (split_free "," features) by by apply blank_free_of_comma.
  simpl. by rewrite Number_blank.
Qed.

Lemma blank_features_are_sent_as_zero_witness :
  features_body ""
  = JObject [ ("features", JArray [ JNumber (Decimal false 0 0) ]) ].
Proof.
  apply (blank_features_are_sent_as_zero "").
  apply Forall_nil_2.
Defined.

(** X16: a features text without comma that starts with a letter other than
    the capital I is sent as the single feature [null]. *)
Theorem word_features_are_sent_as_null (c : ascii) (rest : string) :
  is_letter c = true → c ≠ "I"%char → free_of "," (String c rest) →
  features_body (String c rest) = JObject [ ("features", JArray [ JNull ]) ].
Proof.
  intros Hc HI Hfree. unfold features_body.
  rewrite (split_free "," _ Hfree). simpl fmap.
  by rewrite Number_letter.
Qed.

Lemma word_features_are_sent_as_null_witness :
  features_body "high" = JObject [ ("features", JArray [ JNull ]) ].
Proof.
  apply (word_features_are_sent_as_null "h" "igh").
  - reflexivity.
  - discriminate.
  - unfold free_of. compute_done.
Defined.

End PredictInputs.

Section PredictAnswers.

Import JsNumber Http Predict.

Lemma zero_is_falsy (neg : bool) (e : Z) :
  truthy (Parsed (JNumber (Decimal neg 0 e))) = false.
Proof. by destruct e. Qed.

(** X17: when the answer is a JSON object the handler succeeds, but the
    heading with the prediction is rendered only for a truthy one: with the
    [prediction] field missing, [null], [false], the empty string or a zero
    in any notation, the JSX yields no heading, as before any submission. *)
Theorem falsy_prediction_renders_no_heading
    (network : request → promise response) (c : component)
    (r : response) (fields : list (string * json)) :
  network (predict_request (features c)) = Fulfilled r →
  resp_json r = Fulfilled (JObject fields) →
  heading_rendered mount = false ∧
  (handleSubmit network c).1 = Ok tt ∧
  (field "prediction" fields
     ∈ [ None; Some JNull; Some (JBool false); Some (JString "") ] ∨
   (∃ neg e, field "prediction" fields = Some (JNumber (Decimal neg 0 e))) →
   heading_rendered (handleSubmit network c).2 = false).
Proof.
  intros Hnet Hjson. split; [reflexivity|].
  rewrite handleSubmit_unfold, Hnet, Hjson. simpl.
  split; [reflexivity|].
  unfold heading_rendered. simpl.
  intros [Hin|(neg & e & ->)]; [|apply zero_is_falsy].
  rewrite !elem_of_cons, elem_of_nil in Hin.
  by destruct Hin as [->|[->|[->|[->|[]]]]].
Qed.

Lemma falsy_prediction_renders_no_heading_witness :
  let network := λ _ : request,
    Fulfilled {| status := 200%N;
                 resp_json :=
                   Fulfilled (JObject [ ("prediction",
                                         JNumber (Decimal false 0 0)) ]) |} in
  heading_rendered mount = false ∧
  (handleSubmit network (setFeatures "1,2" mount)).1 = Ok tt ∧
  (field "prediction" [ ("prediction", JNumber (Decimal false 0 0)) ]
     ∈ [ None; Some JNull; Some (JBool false); Some (JString "") ] ∨
   (∃ neg e, field "prediction" [ ("prediction", JNumber (Decimal false 0 0)) ]
             = Some (JNumber (Decimal neg 0 e))) →
   heading_rendered (handleSubmit network (setFeatures "1,2" mount)).2 = false).
Proof.
  intros network.
  apply (falsy_prediction_renders_no_heading network (setFeatures "1,2" mount)
           {| status := 200%N;
              resp_json :=
                Fulfilled (JObject [ ("prediction",
                                      JNumber (Decimal false 0 0)) ]) |}
           [ ("prediction", JNumber (Decimal false 0 0)) ]).
  - reflexivity.
  - reflexivity.
Defined.

(** X18: an answer that parses but is no object is not checked for: on
    [null] the property read throws a [TypeError] and [result] is left as it
    was; on a boolean, a number, a string or an array the handler succeeds
    and [result] becomes [undefined], which renders no heading. *)
Theorem answers_that_are_no_object
    (network : request → promise response) (c : component)
    (r : response) (data : json) :
  network (predict_request (features c)) = Fulfilled r →
  resp_json r = Fulfilled data →
  (∀ fields, data ≠ JObject fields) →
  (data = JNull →
   ∃ msg, (handleSubmit network c).1 = Throw (TypeError msg) ∧
          result (handleSubmit network c).2 = result c) ∧
  (data ≠ JNull →
   (handleSubmit network c).1 = Ok tt ∧
   result (handleSubmit network c).2 = Undefined ∧
   heading_rendered (handleSubmit network c).2 = false).
Proof.
  intros Hnet Hjson Hobj.
  rewrite handleSubmit_unfold, Hnet, Hjson.
  destruct data as [|b|n|s|items|fields]; simpl;
    try (split; [discriminate|done]).
  - split; [|done]. intros _. by eexists.
  - by destruct (Hobj fields).
Qed.

Lemma answers_that_are_no_object_witness :
  let network := λ _ : request,
    Fulfilled {| status := 200%N; resp_json := Fulfilled (JString "ok") |} in
  (JString "ok" = JNull →
   ∃ msg, (handleSubmit network (setFeatures "1,2" mount)).1
          = Throw (TypeError msg) ∧
          result (handleSubmit network (setFeatures "1,2" mount)).2
          = result (setFeatures "1,2" mount)) ∧
  (JString "ok" ≠ JNull →
   (handleSubmit network (setFeatures "1,2" mount)).1 = Ok tt ∧
   result (handleSubmit network (setFeatures "1,2" mount)).2 = Undefined ∧
   heading_rendered (handleSubmit network (setFeatures "1,2" mount)).2 = false).
Proof.
  intros network.
  apply (answers_that_are_no_object network (setFeatures "1,2" mount)
           {| status := 200%N; resp_json := Fulfilled (JString "ok") |}
           (JString "ok")).
  - reflexivity.
  - reflexivity.
  - discriminate.
Defined.

(** X19: a submission that fails after one that succeeded leaves the old
    prediction in [result], so the view keeps showing it; each of the two
    submissions has prevented the default and sent its request. *)
Theorem failed_submission_keeps_old_prediction
    (first second : request → promise response) (c : component)
    (r : response) (fields : list (string * json)) (v : json) (e : error) :
  first (predict_request (features c)) = Fulfilled r →
  resp_json r = Fulfilled (JObject fields) →
  field "prediction" fields = Some v →
  second (predict_request (features c)) = Rejected e →
  (handleSubmit second (handleSubmit first c).2).1 = Throw e ∧
  result (handleSubmit second (handleSubmit first c).2).2 = Parsed v ∧
  trace (handleSubmit second (handleSubmit first c).2).2
  = trace c ++ [ PreventDefault; Fetch (predict_request (features c));
                 PreventDefault; Fetch (predict_request (features c)) ].
Proof.
  intros Hfirst Hjson Hfield Hsecond.
  rewrite (handleSubmit_unfold first), Hfirst, Hjson. simpl. rewrite Hfield.
  rewrite handleSubmit_unfold. simpl. rewrite Hsecond. simpl.
  split; [done|]. split; [done|]. by rewrite <- app_assoc.
Qed.

Lemma failed_submission_keeps_old_prediction_witness :
  let first := λ _ : request,
    Fulfilled {| status := 200%N;
                 resp_json :=
                   Fulfilled (JObject [ ("prediction", JString "Yes") ]) |} in
  let second := λ _ : request, Rejected (NetworkError "Failed to fetch") in
  let c := setFeatures "1,2" mount in
  (handleSubmit second (handleSubmit first c).2).1
  = Throw (NetworkError "Failed to fetch") ∧
  result (handleSubmit second (handleSubmit first c).2).2
  = Parsed (JString "Yes") ∧
  trace (handleSubmit second (handleSubmit first c).2).2
  = trace c ++ [ PreventDefault; Fetch (predict_request (features c));
                 PreventDefault; Fetch (predict_request (features c)) ].
Proof.
  intros first second c.
  apply (failed_submission_keeps_old_prediction first second c
           {| status := 200%N;
              resp_json := Fulfilled (JObject [ ("prediction", JString "Yes") ]) |}
           [ ("prediction", JString "Yes") ] (JString "Yes")
           (NetworkError "Failed to fetch")).
  - reflexivity.
  - reflexivity.
  - reflexivity.
  - reflexivity.
Defined.

End PredictAnswers.
